(** * ClassQuiz: the data models of [classquiz/db/models.py]

    A shallow embedding of the pydantic and ormar models of ClassQuiz and of
    the validation code attached to them, followed by the properties that the
    design document states about them.

    Conventions.
    - A Python [str] is a [string], an [int] is a [Z], a [uuid.UUID] is its
      128-bit integer value, a [datetime] is a number of microseconds.
    - A Python [float] is an IEEE 754 binary64 value ([spec_float]).
    - Python exceptions are explicit: a computation that may raise returns an
      [outcome], and a model constructor returns either the record or a
      [construct_error].
    - Record fields carry a prefix naming their class, since several classes
      share field names ([answer], [title], [id], ...). *)

From Stdlib Require Import ZArith String Ascii List Bool.
From Corelib Require Import SpecFloat.
From stdpp Require Import base option list gmap strings fin_maps pretty.

Local Open Scope Z_scope.

(** ** Python exceptions and the monad of computations that may raise *)

Inductive exn : Type :=
  | ValueError (msg : string)
  | TypeError
  | IndexError
  | KeyError (key : string).

Inductive outcome (A : Type) : Type :=
  | Return (a : A)
  | Raise (e : exn).
Arguments Return {A} a.
Arguments Raise {A} e.

#[global] Instance outcome_ret : MRet outcome := fun A a => Return a.
#[global] Instance outcome_bind : MBind outcome :=
  fun A B (f : A -> outcome B) (m : outcome A) =>
  match m with
  | Return a => f a
  | Raise e => Raise e
  end.

(** [a and b]: the right operand is evaluated only when the left one holds. *)
Definition py_and (a b : outcome bool) : outcome bool :=
  a ≫= λ x : bool, if x then b else mret false.

(** [if c: raise e] followed by the rest of the body, [k]. *)
Definition if_raise {A} (c : outcome bool) (e : exn) (k : outcome A) : outcome A :=
  c ≫= λ x : bool, if x then Raise e else k.

Infix "&&&" := py_and (at level 40, left associativity).
Notation "'If' c 'raise' e ';;;' k" := (if_raise c e k)
  (at level 10, c at level 99, e at level 99, k at level 200).

Definition returned {A} (o : outcome A) : bool :=
  match o with Return _ => true | Raise _ => false end.

(** ** Answer keys (lines 98-129) *)

Record ABCDQuizAnswer : Type := {
  abcd_right : bool;
  abcd_answer : string;
  abcd_color : option string
}.

Record RangeQuizAnswer : Type := {
  range_min : Z;
  range_max : Z;
  range_min_correct : Z;
  range_max_correct : Z
}.

Record VotingQuizAnswer : Type := {
  voting_answer : string;
  voting_image : option string;
  voting_color : option string
}.

Inductive QuizQuestionType : Type :=
  | ABCD | RANGE | VOTING | SLIDE | TEXT | ORDER | CHECK.

#[global] Instance QuizQuestionType_eq_dec : EqDecision QuizQuestionType.
Proof. solve_decision. Defined.

(** The enum is a [str] enum: each member has a string value, and pydantic
    turns an input string into the member with that value. *)
Definition QuizQuestionType_value (t : QuizQuestionType) : string :=
  match t with
  | ABCD => "ABCD" | RANGE => "RANGE" | VOTING => "VOTING" | SLIDE => "SLIDE"
  | TEXT => "TEXT" | ORDER => "ORDER" | CHECK => "CHECK"
  end.

Definition QuizQuestionType_members : list QuizQuestionType :=
  [ABCD; RANGE; VOTING; SLIDE; TEXT; ORDER; CHECK].

Definition QuizQuestionType_of_value (s : string) : option QuizQuestionType :=
  List.find (fun t => String.eqb (QuizQuestionType_value t) s) QuizQuestionType_members.

Record TextQuizAnswer : Type := {
  text_answer : string;
  text_case_sensitive : bool
}.

(** ** QuizQuestion (lines 132-155) *)

(** The annotation of [answers]:
    [list[ABCDQuizAnswer] | RangeQuizAnswer | list[TextQuizAnswer] | list[VotingQuizAnswer] | str].
    pydantic coerces the input to a member of this union before the validator
    runs, so the validator's argument [v] is one of these five shapes.  The
    three empty lists stand for the one Python value [[]]. *)
Inductive answers_t : Type :=
  | AnsABCD (l : list ABCDQuizAnswer)
  | AnsRange (r : RangeQuizAnswer)
  | AnsText (l : list TextQuizAnswer)
  | AnsVoting (l : list VotingQuizAnswer)
  | AnsStr (s : string).

(** What [type(...)] can return on [v] and on [v[0]]. *)
Inductive pytype : Type :=
  | Ty_ABCDQuizAnswer | Ty_RangeQuizAnswer | Ty_TextQuizAnswer
  | Ty_VotingQuizAnswer | Ty_str | Ty_list.

#[global] Instance pytype_eq_dec : EqDecision pytype.
Proof. solve_decision. Defined.

(** [type(v)] *)
Definition type_of (v : answers_t) : pytype :=
  match v with
  | AnsABCD _ | AnsText _ | AnsVoting _ => Ty_list
  | AnsRange _ => Ty_RangeQuizAnswer
  | AnsStr _ => Ty_str
  end.

(** [type(v[0])]: indexing an empty list or an empty string raises
    [IndexError]; a pydantic model is not subscriptable ([TypeError]); the
    first element of a non-empty string is a one-character [str]. *)
Definition type_of_first (v : answers_t) : outcome pytype :=
  match v with
  | AnsABCD [] | AnsText [] | AnsVoting [] => Raise IndexError
  | AnsABCD (_ :: _) => Return Ty_ABCDQuizAnswer
  | AnsText (_ :: _) => Return Ty_TextQuizAnswer
  | AnsVoting (_ :: _) => Return Ty_VotingQuizAnswer
  | AnsRange _ => Raise TypeError
  | AnsStr EmptyString => Raise IndexError
  | AnsStr (String _ _) => Return Ty_str
  end.

(** The entries of the dict [values] that pydantic hands to a validator: the
    fields declared before [answers] that validated ([question], [time],
    [type]).  A field that failed validation is absent. *)
Inductive field_value : Type :=
  | FStr (s : string)
  | FType (t : option QuizQuestionType).

(** [values[key]] *)
Definition getitem (values : gmap string field_value) (key : string) : outcome field_value :=
  match values !! key with
  | Some x => Return x
  | None => Raise (KeyError key)
  end.

(** [values["type"] == QuizQuestionType.T]; [None] and strings that are not
    the member compare unequal. *)
Definition type_is (values : gmap string field_value) (t : QuizQuestionType) : outcome bool :=
  x ← getitem values "type";
  mret match x with
       | FType (Some t') => bool_decide (t' = t)
       | FType None => false
       | FStr s => String.eqb s (QuizQuestionType_value t)
       end.

(** [a != b] on types *)
Definition ne (a b : pytype) : bool := negb (bool_decide (a = b)).

Definition answers_not_none_if_abcd_type
    (v : answers_t) (values : gmap string field_value) : outcome answers_t :=
  If type_is values ABCD &&& (t ← type_of_first v; mret (ne t Ty_ABCDQuizAnswer))
    raise ValueError "Answers can't be none if type is ABCD" ;;;
  If type_is values RANGE &&& mret (ne (type_of v) Ty_RangeQuizAnswer)
    raise ValueError "Answer must be from type RangeQuizAnswer if type is RANGE" ;;;
  If type_is values VOTING &&& (t ← type_of_first v; mret (ne t Ty_VotingQuizAnswer))
    raise ValueError "Answer must be from type VotingQuizAnswer if type is VOTING" ;;;
  If type_is values TEXT &&& (t ← type_of_first v; mret (ne t Ty_TextQuizAnswer))
    raise ValueError "Answer must be from type TextQuizAnswer if type is TEXT" ;;;
  If type_is values ORDER &&& (t ← type_of_first v; mret (ne t Ty_VotingQuizAnswer))
    raise ValueError "Answer must be from type VotingQuizAnswer if type is ORDER" ;;;
  If type_is values SLIDE &&& (t ← type_of_first v; mret (ne t Ty_str))
    raise ValueError "Answer must be from type SlideElement if type is SLIDE" ;;;
  If type_is values CHECK &&& (t ← type_of_first v; mret (ne t Ty_ABCDQuizAnswer))
    raise ValueError "Answers can't be none if type is CHECK" ;;;
  Return v.

Record QuizQuestion : Type := {
  qq_question : string;
  qq_time : string;  (* in Secs *)
  qq_type : option QuizQuestionType;
  qq_answers : answers_t;
  qq_image : option string
}.

(** What a caller may pass for [type]: nothing (the default [ABCD] applies),
    an explicit [None] (the annotation is [None | QuizQuestionType]), or a
    string that pydantic looks up among the enum values. *)
Inductive type_arg : Type :=
  | TypeOmitted
  | TypeNone
  | TypeGiven (s : string).

Record QuizQuestion_args : Type := {
  arg_question : string;
  arg_time : string;
  arg_type : type_arg;
  arg_answers : answers_t;
  arg_image : option string
}.

(** Validation of the [type] field; [None] is a validation error. *)
Definition validate_type (a : type_arg) : option (option QuizQuestionType) :=
  match a with
  | TypeOmitted => Some (Some ABCD)
  | TypeNone => Some None
  | TypeGiven s =>
      match QuizQuestionType_of_value s with
      | Some t => Some (Some t)
      | None => None
      end
  end.

(** How a constructor fails: pydantic collects [ValueError] and [TypeError]
    raised by validators into one [ValidationError] (listing the offending
    fields); any other exception leaves the constructor as it is. *)
Inductive construct_error : Type :=
  | ValidationError (fields : list string)
  | Uncaught (e : exn).

(** The dict [values] when the validator of [answers] runs. *)
Definition values_before_answers (a : QuizQuestion_args) : gmap string field_value :=
  let base : gmap string field_value :=
    <["time" := FStr (arg_time a)]> (<["question" := FStr (arg_question a)]> ∅) in
  match validate_type (arg_type a) with
  | Some t => <["type" := FType t]> base
  | None => base
  end.

(** [QuizQuestion(question=..., time=..., type=..., answers=..., image=...)] *)
Definition QuizQuestion_init (a : QuizQuestion_args) : construct_error + QuizQuestion :=
  match answers_not_none_if_abcd_type (arg_answers a) (values_before_answers a) with
  | Raise (ValueError _) | Raise TypeError =>
      inl (ValidationError
             (match validate_type (arg_type a) with
              | None => ["type"; "answers"]
              | Some _ => ["answers"]
              end))
  | Raise e => inl (Uncaught e)
  | Return v =>
      match validate_type (arg_type a) with
      | None => inl (ValidationError ["type"])
      | Some t =>
          inr {| qq_question := arg_question a;
                 qq_time := arg_time a;
                 qq_type := t;
                 qq_answers := v;
                 qq_image := arg_image a |}
      end
  end.

(** The shape that the design document associates with each type tag. *)
Definition shape_matches (t : QuizQuestionType) (v : answers_t) : bool :=
  match t, v with
  | (ABCD | CHECK), AnsABCD _ => true
  | RANGE, AnsRange _ => true
  | (VOTING | ORDER), AnsVoting _ => true
  | TEXT, AnsText _ => true
  | SLIDE, AnsStr _ => true
  | _, _ => false
  end.

(** The Python value [[]], whichever member of the union it was read as. *)
Definition empty_list (v : answers_t) : bool :=
  match v with
  | AnsABCD [] | AnsText [] | AnsVoting [] => true
  | _ => false
  end.

(** Whether the constructor returns a question. *)
Definition accepts (a : QuizQuestion_args) : bool :=
  match QuizQuestion_init a with
  | inr _ => true
  | inl _ => false
  end.

(** ** PlayGame and the small game models (lines 233-296) *)

Definition UUID : Type := Z.
Definition datetime : Type := Z.
Definition float : Type := spec_float.

(** [quiz_id: uuid.UUID | str] *)
Inductive uuid_or_str : Type :=
  | IsUUID (u : UUID)
  | IsStr (s : string).

Record PlayGame : Type := {
  pg_quiz_id : uuid_or_str;
  pg_description : string;
  pg_user_id : UUID;
  pg_title : string;
  pg_questions : list QuizQuestion;
  pg_game_id : UUID;
  pg_game_pin : string;
  pg_started : bool;
  pg_captcha_enabled : bool;
  pg_cover_image : option string;
  pg_game_mode : option string;
  pg_current_question : Z;
  pg_background_color : option string;
  pg_background_image : option string;
  pg_custom_field : option string;
  pg_question_show : bool
}.

(** The keyword arguments of [PlayGame(...)].  A field with a default is
    optional: [None] means that the caller did not pass it.  The [str | None]
    fields without a default are optional too and default to [None]. *)
Record PlayGame_args : Type := {
  pga_quiz_id : uuid_or_str;
  pga_description : string;
  pga_user_id : UUID;
  pga_title : string;
  pga_questions : list QuizQuestion;
  pga_game_id : UUID;
  pga_game_pin : string;
  pga_started : option bool;
  pga_captcha_enabled : option bool;
  pga_cover_image : option string;
  pga_game_mode : option string;
  pga_current_question : option Z;
  pga_background_color : option string;
  pga_background_image : option string;
  pga_custom_field : option string;
  pga_question_show : option bool
}.

Definition PlayGame_init (a : PlayGame_args) : PlayGame :=
  {| pg_quiz_id := pga_quiz_id a;
     pg_description := pga_description a;
     pg_user_id := pga_user_id a;
     pg_title := pga_title a;
     pg_questions := pga_questions a;
     pg_game_id := pga_game_id a;
     pg_game_pin := pga_game_pin a;
     pg_started := default false (pga_started a);
     pg_captcha_enabled := default false (pga_captcha_enabled a);
     pg_cover_image := pga_cover_image a;
     pg_game_mode := pga_game_mode a;
     pg_current_question := default (-1) (pga_current_question a);
     pg_background_color := pga_background_color a;
     pg_background_image := pga_background_image a;
     pg_custom_field := pga_custom_field a;
     pg_question_show := default false (pga_question_show a) |}.

Record GamePlayer : Type := {
  gp_username : string;
  gp_sid : option string
}.

Record GameAnswer2 : Type := {
  ga2_username : string;
  ga2_right : bool;
  ga2_answer : string
}.

Record GameAnswer1 : Type := {
  ga1_id : Z;
  ga1_answers : list GameAnswer2
}.

Record GameSession : Type := {
  gs_admin : string;
  gs_game_id : string;
  gs_answers : list (option GameAnswer1)
}.

Record AnswerData : Type := {
  ad_username : string;
  ad_answer : string;
  ad_right : bool;
  ad_time_taken : float;  (* In milliseconds *)
  ad_score : Z
}.

(** [AnswerData(username=..., answer=..., right=..., time_taken=..., score=...)]:
    the class declares no validator and no constrained type, so every value
    of the annotated types is accepted as it is. *)
Definition AnswerData_init (username answer : string) (right : bool)
    (time_taken : float) (score : Z) : construct_error + AnswerData :=
  inr {| ad_username := username;
         ad_answer := answer;
         ad_right := right;
         ad_time_taken := time_taken;
         ad_score := score |}.


(** ** The interpreter's sources of fresh values

    [uuid.uuid4()], [datetime.now()] and [os.urandom(n)] read the outside
    world.  The world is an oracle for each of them together with the number
    of calls made so far; a computation that may call them is a state
    transformer over the world. *)

Record World : Type := {
  w_uuid4 : nat -> UUID;
  w_uuid4_calls : nat;
  w_now : nat -> datetime;
  w_now_calls : nat;
  w_urandom : nat -> nat -> Byte.byte;
  w_urandom_calls : nat
}.

Definition IO (A : Type) : Type := World -> A * World.

#[global] Instance IO_ret : MRet IO := fun A (a : A) (w : World) => (a, w).
#[global] Instance IO_bind : MBind IO :=
  fun A B (f : A -> IO B) (m : IO A) (w : World) =>
  let '(a, w') := m w in f a w'.

Definition uuid4 : IO UUID := fun w =>
  (w_uuid4 w (w_uuid4_calls w),
   {| w_uuid4 := w_uuid4 w; w_uuid4_calls := S (w_uuid4_calls w);
      w_now := w_now w; w_now_calls := w_now_calls w;
      w_urandom := w_urandom w; w_urandom_calls := w_urandom_calls w |}).

Definition datetime_now : IO datetime := fun w =>
  (w_now w (w_now_calls w),
   {| w_uuid4 := w_uuid4 w; w_uuid4_calls := w_uuid4_calls w;
      w_now := w_now w; w_now_calls := S (w_now_calls w);
      w_urandom := w_urandom w; w_urandom_calls := w_urandom_calls w |}).

Definition urandom (n : nat) : IO (list Byte.byte) := fun w =>
  (List.map (w_urandom w (w_urandom_calls w)) (seq 0 n),
   {| w_uuid4 := w_uuid4 w; w_uuid4_calls := w_uuid4_calls w;
      w_now := w_now w; w_now_calls := w_now_calls w;
      w_urandom := w_urandom w; w_urandom_calls := S (w_urandom_calls w) |}).

(** [bytes.hex()]: two lowercase hexadecimal digits per byte. *)
Definition hex_digit (n : N) : ascii :=
  match n with
  | 0 => "0" | 1 => "1" | 2 => "2" | 3 => "3" | 4 => "4" | 5 => "5"
  | 6 => "6" | 7 => "7" | 8 => "8" | 9 => "9" | 10 => "a" | 11 => "b"
  | 12 => "c" | 13 => "d" | 14 => "e" | _ => "f"
  end%N%char.

Fixpoint hex (bs : list Byte.byte) : string :=
  match bs with
  | [] => EmptyString
  | b :: bs' =>
      String (hex_digit (Byte.to_N b / 16))
        (String (hex_digit (Byte.to_N b mod 16)) (hex bs'))
  end.

(** ** ormar column defaults

    The [default=] argument of an ormar column is either a plain value, used
    as it is for every row, or a callable, called once per row.  Every
    default in [models.py] is written as a call ([uuid.uuid4()],
    [datetime.now()], [os.urandom(32).hex()]), so what the column receives is
    the value that the call returned while the class body was executed. *)

Inductive ormar_default (A : Type) : Type :=
  | DefaultValue (a : A)
  | DefaultCallable (f : IO A).
Arguments DefaultValue {A} a.
Arguments DefaultCallable {A} f.

(** The value of a field for a new row: the explicit argument if there is
    one, otherwise the column default. *)
Definition populate {A} (d : ormar_default A) (explicit : option A) : IO A :=
  match explicit with
  | Some a => mret a
  | None =>
      match d with
      | DefaultValue a => mret a
      | DefaultCallable f => f
      end
  end.

(** The defaults that executing the module stores in its model classes, in
    the order of the class bodies. *)
Record ModelDefaults : Type := {
  User_id : ormar_default UUID;
  User_created_at : ormar_default datetime;
  User_backup_code : ormar_default string;
  UserSession_id : ormar_default UUID;
  UserSession_created_at : ormar_default datetime;
  UserSession_last_seen : ormar_default datetime;
  Quiz_id : ormar_default UUID;
  Quiz_created_at : ormar_default datetime;
  Quiz_updated_at : ormar_default datetime;
  InstanceData_instance_id : ormar_default UUID;
  GameResults_timestamp : ormar_default datetime;
  StorageItem_uploaded_at : ormar_default datetime
}.

(** Executing [models.py] (importing the module). *)
Definition import_models : IO ModelDefaults :=
  (* class User *)
  uuid4 ≫= λ user_id : UUID,
  datetime_now ≫= λ user_created_at : datetime,
  urandom 32 ≫= λ user_backup : list Byte.byte,
  (* class UserSession *)
  uuid4 ≫= λ session_id : UUID,
  datetime_now ≫= λ session_created_at : datetime,
  datetime_now ≫= λ session_last_seen : datetime,
  (* class Quiz *)
  uuid4 ≫= λ quiz_id : UUID,
  datetime_now ≫= λ quiz_created_at : datetime,
  datetime_now ≫= λ quiz_updated_at : datetime,
  (* class InstanceData *)
  uuid4 ≫= λ instance_id : UUID,
  (* class GameResults *)
  datetime_now ≫= λ results_timestamp : datetime,
  (* class StorageItem *)
  datetime_now ≫= λ item_uploaded_at : datetime,
  mret {| User_id := DefaultValue user_id;
          User_created_at := DefaultValue user_created_at;
          User_backup_code := DefaultValue (hex user_backup);
          UserSession_id := DefaultValue session_id;
          UserSession_created_at := DefaultValue session_created_at;
          UserSession_last_seen := DefaultValue session_last_seen;
          Quiz_id := DefaultValue quiz_id;
          Quiz_created_at := DefaultValue quiz_created_at;
          Quiz_updated_at := DefaultValue quiz_updated_at;
          InstanceData_instance_id := DefaultValue instance_id;
          GameResults_timestamp := DefaultValue results_timestamp;
          StorageItem_uploaded_at := DefaultValue item_uploaded_at |}.

(** ** User (lines 19-53) *)

Inductive UserAuthTypes : Type := LOCAL | GOOGLE | GITHUB | CUSTOM.

Record User : Type := {
  user_id : UUID;
  user_email : string;
  user_username : string;
  user_password : option string;
  user_verified : bool;
  user_verify_key : option string;
  user_created_at : datetime;
  user_auth_type : UserAuthTypes;
  user_google_uid : option string;
  user_avatar : list Byte.byte;
  user_github_user_id : option Z;
  user_require_password : bool;
  user_backup_code : string;
  user_totp_secret : option string;
  user_storage_used : Z
}.

(** The keyword arguments of [User(...)]; for a column with a default,
    [None] means that the caller passed nothing. *)
Record User_args : Type := {
  ua_id : option UUID;
  ua_email : string;
  ua_username : string;
  ua_password : option string;
  ua_verified : option bool;
  ua_verify_key : option string;
  ua_created_at : option datetime;
  ua_auth_type : option UserAuthTypes;
  ua_google_uid : option string;
  ua_avatar : list Byte.byte;
  ua_github_user_id : option Z;
  ua_require_password : option bool;
  ua_backup_code : option string;
  ua_totp_secret : option string;
  ua_storage_used : option Z
}.

Definition User_new (m : ModelDefaults) (a : User_args) : IO User :=
  populate (User_id m) (ua_id a) ≫= λ id : UUID,
  populate (User_created_at m) (ua_created_at a) ≫= λ created_at : datetime,
  populate (User_backup_code m) (ua_backup_code a) ≫= λ backup_code : string,
  mret {| user_id := id;
          user_email := ua_email a;
          user_username := ua_username a;
          user_password := ua_password a;
          user_verified := default false (ua_verified a);
          user_verify_key := ua_verify_key a;
          user_created_at := created_at;
          user_auth_type := default LOCAL (ua_auth_type a);
          user_google_uid := ua_google_uid a;
          user_avatar := ua_avatar a;
          user_github_user_id := ua_github_user_id a;
          user_require_password := default true (ua_require_password a);
          user_backup_code := backup_code;
          user_totp_secret := ua_totp_secret a;
          user_storage_used := default 0 (ua_storage_used a) |}.

(** ** Quiz (lines 177-204) *)

Record Quiz : Type := {
  quiz_id : UUID;
  quiz_public : bool;
  quiz_title : string;
  quiz_description : option string;
  quiz_created_at : datetime;
  quiz_updated_at : datetime;
  quiz_user_id : option UUID;
  quiz_questions : list QuizQuestion;
  quiz_imported_from_kahoot : option bool;
  quiz_cover_image : option string;
  quiz_background_color : option string;
  quiz_background_image : option string;
  quiz_kahoot_id : option UUID
}.

Record Quiz_args : Type := {
  qa_id : option UUID;
  qa_public : option bool;
  qa_title : option string;
  qa_description : option string;
  qa_created_at : option datetime;
  qa_updated_at : option datetime;
  qa_user_id : option UUID;
  qa_questions : option (list QuizQuestion);
  qa_imported_from_kahoot : option (option bool);
  qa_cover_image : option string;
  qa_background_color : option string;
  qa_background_image : option string;
  qa_kahoot_id : option UUID
}.

(** A column declared [nullable=False] and without a default must be given:
    the names of the mandatory fields that are missing. *)
Definition missing {A} (name : string) (x : option A) : list string :=
  match x with
  | Some _ => []
  | None => [name]
  end.

(** [must_come_from_local_cdn]; [local] is [bool(re.match(server_regex, v))],
    where [server_regex] comes from the configuration module. *)
Definition must_come_from_local_cdn (local : string -> bool) (v : option string)
    : outcome (option string) :=
  match v with
  | None => Return v
  | Some url =>
      if local url then Return v
      else Raise (ValueError "does not match url scheme")
  end.

Definition Quiz_new (local : string -> bool) (m : ModelDefaults) (a : Quiz_args)
    : IO (construct_error + Quiz) :=
  populate (Quiz_id m) (qa_id a) ≫= λ id : UUID,
  populate (Quiz_created_at m) (qa_created_at a) ≫= λ created_at : datetime,
  populate (Quiz_updated_at m) (qa_updated_at a) ≫= λ updated_at : datetime,
  mret match qa_title a, qa_questions a,
             must_come_from_local_cdn local (qa_background_image a) with
       | Some title, Some questions, Return background_image =>
           inr {| quiz_id := id;
                  quiz_public := default false (qa_public a);
                  quiz_title := title;
                  quiz_description := qa_description a;
                  quiz_created_at := created_at;
                  quiz_updated_at := updated_at;
                  quiz_user_id := qa_user_id a;
                  quiz_questions := questions;
                  quiz_imported_from_kahoot :=
                    default (Some false) (qa_imported_from_kahoot a);
                  quiz_cover_image := qa_cover_image a;
                  quiz_background_color := qa_background_color a;
                  quiz_background_image := background_image;
                  quiz_kahoot_id := qa_kahoot_id a |}
       | _, _, r =>
           inl (ValidationError
                  (missing "title" (qa_title a) ++
                   missing "questions" (qa_questions a) ++
                   match r with Raise _ => ["background_image"] | Return _ => [] end))
       end.

(** ** GameResults (lines 308-325) *)

Record GameResults : Type := {
  gr_id : UUID;
  gr_quiz : option UUID;
  gr_user : option UUID;
  gr_timestamp : datetime;
  gr_player_count : Z;
  gr_note : option string;
  gr_answers : list AnswerData;
  gr_player_scores : option (gmap string string);
  gr_custom_field_data : option (gmap string string);
  gr_title : string;
  gr_description : string;
  gr_questions : list QuizQuestion
}.

Record GameResults_args : Type := {
  gra_id : UUID;
  gra_quiz : option UUID;
  gra_user : option UUID;
  gra_timestamp : option datetime;
  gra_player_count : option Z;
  gra_note : option string;
  gra_answers : option (list AnswerData);
  gra_player_scores : option (gmap string string);
  gra_custom_field_data : option (gmap string string);
  gra_title : option string;
  gra_description : option string;
  gra_questions : option (list QuizQuestion)
}.

Definition GameResults_new (m : ModelDefaults) (a : GameResults_args)
    : IO (construct_error + GameResults) :=
  populate (GameResults_timestamp m) (gra_timestamp a) ≫= λ timestamp : datetime,
  mret match gra_answers a, gra_title a, gra_description a, gra_questions a with
       | Some answers, Some title, Some description, Some questions =>
           inr {| gr_id := gra_id a;
                  gr_quiz := gra_quiz a;
                  gr_user := gra_user a;
                  gr_timestamp := timestamp;
                  gr_player_count := default 0 (gra_player_count a);
                  gr_note := gra_note a;
                  gr_answers := answers;
                  gr_player_scores := gra_player_scores a;
                  gr_custom_field_data := gra_custom_field_data a;
                  gr_title := title;
                  gr_description := description;
                  gr_questions := questions |}
       | _, _, _, _ =>
           inl (ValidationError
                  (missing "answers" (gra_answers a) ++
                   missing "title" (gra_title a) ++
                   missing "description" (gra_description a) ++
                   missing "questions" (gra_questions a)))
       end.

(** ** The two tables involved in a finished game

    [GameResults.quiz] is a foreign key into the [quiz] table; the title, the
    description and the questions are columns of [game_results] itself. *)

Record Database : Type := {
  quiz_table : gmap Z Quiz;
  game_results_table : gmap Z GameResults
}.

(** Statements that touch a row of [quiz]: [Quiz.update()] / [Quiz.save()]
    and [Quiz.delete()]. *)
Inductive quiz_statement : Type :=
  | QuizSave (q : Quiz)
  | QuizDelete (id : UUID).

Definition execute (db : Database) (st : quiz_statement) : Database :=
  match st with
  | QuizSave q =>
      {| quiz_table := <[quiz_id q := q]> (quiz_table db);
         game_results_table := game_results_table db |}
  | QuizDelete id =>
      {| quiz_table := delete id (quiz_table db);
         game_results_table := game_results_table db |}
  end.

Definition execute_all (db : Database) (sts : list quiz_statement) : Database :=
  fold_left execute sts db.

(** [GameResults.objects.get(id=...)] *)
Definition results_get (db : Database) (id : UUID) : option GameResults :=
  game_results_table db !! id.

(** * The live session engine

    [models.py] declares the data of a game; the operations on a live session
    (the state machine, the answer ledger and the results finalizer of the
    design document, sections 4.3 to 4.7) are not part of it.  They are
    modelled here over the records above, so that the properties the design
    document states about them can be checked. *)

(** Modelled from the spec: the Answer Validator (4.5) and the Scorer (4.6),
    which are missing from [models.py].  Both are pure functions; the engine
    is parametric in them and relies only on the Scorer's contract: a score
    is an integer [>= 0], and [0] when the answer is not correct.
    [time_limit_ms] reads the question's time limit ([time], a string, in
    seconds) as milliseconds. *)
Class Scoring : Type := {
  check_answer : QuizQuestion -> string -> bool;
  time_limit_ms : QuizQuestion -> float;
  score : bool -> float -> float -> Z;
  score_nonneg : forall (correct : bool) (time_taken limit : float),
    0 <= score correct time_taken limit;
  score_incorrect : forall (time_taken limit : float),
    score false time_taken limit = 0
}.

(** Modelled from the spec: the GameSession entity of section 3, missing from
    [models.py]: the quiz snapshot and the flags [current_question],
    [question_show], [started] (kept in a [PlayGame]), [finished], the roster,
    and the answer ledger, one list of accepted submissions per question
    index. *)
Record Session : Type := {
  s_game : PlayGame;
  s_finished : bool;
  s_roster : list GamePlayer;
  s_ledger : list (list AnswerData)
}.

(** Modelled from the spec: the states of the session state machine (4.4),
    missing from [models.py]; a session is in one of them according to its
    flags [started] and [finished]. *)
Inductive lifecycle : Type := LOBBY | IN_PROGRESS | FINISHED.

Definition state_of (s : Session) : lifecycle :=
  if s_finished s then FINISHED
  else if pg_started (s_game s) then IN_PROGRESS
  else LOBBY.

Definition in_progress (s : Session) : bool :=
  pg_started (s_game s) && negb (s_finished s).

(** Modelled from the spec: the error taxonomy of section 7, missing from
    [models.py]: the reason codes of [AnswerRejected] and [JoinRejected], and
    what an operation reports to its caller. *)
Inductive answer_reject : Type :=
  | stale_question | question_hidden | duplicate | not_answerable | unknown_player.

Inductive join_reject : Type :=
  | captcha_failed | username_taken | game_already_started.

Inductive response : Type :=
  | Done
  | Joined (p : GamePlayer)
  | Accepted (a : AnswerData)
  | GameFinished (r : GameResults)
  | NotFound
  | InvalidTransition
  | AnswerRejected (why : answer_reject)
  | JoinRejected (why : join_reject).

(** The game with its three mutable flags replaced. *)
Definition with_flags (g : PlayGame) (started : bool) (current_question : Z)
    (question_show : bool) : PlayGame :=
  {| pg_quiz_id := pg_quiz_id g;
     pg_description := pg_description g;
     pg_user_id := pg_user_id g;
     pg_title := pg_title g;
     pg_questions := pg_questions g;
     pg_game_id := pg_game_id g;
     pg_game_pin := pg_game_pin g;
     pg_started := started;
     pg_captcha_enabled := pg_captcha_enabled g;
     pg_cover_image := pg_cover_image g;
     pg_game_mode := pg_game_mode g;
     pg_current_question := current_question;
     pg_background_color := pg_background_color g;
     pg_background_image := pg_background_image g;
     pg_custom_field := pg_custom_field g;
     pg_question_show := question_show |}.

(** Modelled from the spec: [create] of the Session Registry (4.1), missing
    from [models.py], for one session; the session id and the pin come from
    the registries. *)
Definition create (quiz : Quiz) (host_id : UUID) (captcha_enabled : bool)
    (game_id : UUID) (game_pin : string) : Session :=
  {| s_game :=
       PlayGame_init
         {| pga_quiz_id := IsUUID (quiz_id quiz);
            pga_description := default EmptyString (quiz_description quiz);
            pga_user_id := host_id;
            pga_title := quiz_title quiz;
            pga_questions := quiz_questions quiz;
            pga_game_id := game_id;
            pga_game_pin := game_pin;
            pga_started := None;
            pga_captcha_enabled := Some captcha_enabled;
            pga_cover_image := quiz_cover_image quiz;
            pga_game_mode := None;
            pga_current_question := None;
            pga_background_color := quiz_background_color quiz;
            pga_background_image := quiz_background_image quiz;
            pga_custom_field := None;
            pga_question_show := None |};
     s_finished := false;
     s_roster := [];
     s_ledger := replicate (length (quiz_questions quiz)) [] |}.

(** The question at an index, if the index is in range. *)
Definition question_at (g : PlayGame) (i : Z) : option QuizQuestion :=
  if i <? 0 then None else pg_questions g !! Z.to_nat i.

(** The submissions accepted so far for a question index. *)
Definition submissions (s : Session) (i : Z) : list AnswerData :=
  if i <? 0 then [] else default [] (s_ledger s !! Z.to_nat i).

Definition by_player (player : string) (a : AnswerData) : bool :=
  String.eqb (ad_username a) player.

(** The submission recorded for a player and a question index. *)
Definition recorded (s : Session) (player : string) (i : Z) : option AnswerData :=
  List.find (by_player player) (submissions s i).

Definition is_player (s : Session) (player : string) : bool :=
  existsb (fun p => String.eqb (gp_username p) player) (s_roster s).

Definition float_zero : float := S754_zero false.

(** Modelled from the spec: [time_taken] of an AnswerSubmission (section 3),
    non-negative and capped at the question's time limit. *)
Definition cap_time (limit time_taken : float) : float :=
  if SFleb float_zero time_taken
  then if SFleb time_taken limit then time_taken else limit
  else float_zero.

Definition set_game (s : Session) (g : PlayGame) : Session :=
  {| s_game := g; s_finished := s_finished s;
     s_roster := s_roster s; s_ledger := s_ledger s |}.

Definition set_roster (s : Session) (r : list GamePlayer) : Session :=
  {| s_game := s_game s; s_finished := s_finished s;
     s_roster := r; s_ledger := s_ledger s |}.

(** Modelled from the spec: the per-question answer list of a results row
    (section 3): all accepted submissions, in question order. *)
Definition all_answers (s : Session) : list AnswerData := concat (s_ledger s).

Definition sum_scores (l : list AnswerData) : Z :=
  foldr (fun a acc => ad_score a + acc) 0 l.

(** Modelled from the spec: the total that the Results Finalizer (4.7)
    recomputes for a player, the sum of the scores of the player's
    submissions in the whole ledger. *)
Definition player_total (s : Session) (player : string) : Z :=
  sum_scores (List.filter (by_player player) (all_answers s)).

(** Modelled from the spec: the per-player total score mapping (section 3),
    with an entry for every player of the roster. *)
Definition player_scores_of (s : Session) : gmap string string :=
  list_to_map
    (List.map (fun p => (gp_username p, pretty (player_total s (gp_username p))))
       (s_roster s)).

(** Modelled from the spec: the Results Finalizer (4.7), missing from
    [models.py].  It reads the whole ledger, recomputes the total of every
    player of the roster, and fills a [GameResults] row with them and with a
    copy of the quiz's title, description and questions.  The column
    [player_scores] is declared [dict[str, str]]: a total is stored as the
    decimal string of the integer. *)
Definition finalize_args (result_id : UUID) (now : datetime) (s : Session)
    : GameResults_args :=
  {| gra_id := result_id;
     gra_quiz := match pg_quiz_id (s_game s) with
                 | IsUUID u => Some u
                 | IsStr _ => None
                 end;
     gra_user := Some (pg_user_id (s_game s));
     gra_timestamp := Some now;
     gra_player_count := Some (Z.of_nat (length (s_roster s)));
     gra_note := None;
     gra_answers := Some (all_answers s);
     gra_player_scores := Some (player_scores_of s);
     gra_custom_field_data := None;
     gra_title := Some (pg_title (s_game s));
     gra_description := Some (pg_description (s_game s));
     gra_questions := Some (pg_questions (s_game s)) |}.

(** Modelled from the spec: the row written by the Results Finalizer (4.7),
    the one that the constructor of [GameResults] builds from
    [finalize_args]; see [finalize_is_GameResults_new]. *)
Definition finalize (result_id : UUID) (now : datetime) (s : Session) : GameResults :=
  {| gr_id := result_id;
     gr_quiz := gra_quiz (finalize_args result_id now s);
     gr_user := Some (pg_user_id (s_game s));
     gr_timestamp := now;
     gr_player_count := Z.of_nat (length (s_roster s));
     gr_note := None;
     gr_answers := all_answers s;
     gr_player_scores := Some (player_scores_of s);
     gr_custom_field_data := None;
     gr_title := pg_title (s_game s);
     gr_description := pg_description (s_game s);
     gr_questions := pg_questions (s_game s) |}.

(** Modelled from the spec: [start] (4.4), missing from [models.py]. *)
Definition start (s : Session) : Session * response :=
  match state_of s with
  | LOBBY =>
      let g := s_game s in
      (set_game s (with_flags g true (pg_current_question g) (pg_question_show g)),
       Done)
  | _ => (s, InvalidTransition)
  end.

(** Modelled from the spec: [advance_question] (4.4), missing from
    [models.py].  Reaching the question count finishes the session, hides the
    question and runs the finalizer. *)
Definition advance_question (result_id : UUID) (now : datetime) (s : Session)
    : Session * response :=
  match state_of s with
  | IN_PROGRESS =>
      let g := s_game s in
      let next := pg_current_question g + 1 in
      if next =? Z.of_nat (length (pg_questions g)) then
        let s' := {| s_game := with_flags g true next false;
                     s_finished := true;
                     s_roster := s_roster s;
                     s_ledger := s_ledger s |} in
        (s', GameFinished (finalize result_id now s'))
      else (set_game s (with_flags g true next true), Done)
  | _ => (s, InvalidTransition)
  end.

(** Modelled from the spec: [hide_question] (4.4), missing from [models.py]. *)
Definition hide_question (s : Session) : Session * response :=
  let g := s_game s in
  (set_game s (with_flags g (pg_started g) (pg_current_question g) false), Done).

(** Modelled from the spec: [submit_answer] (4.4), missing from [models.py].
    A submission is accepted only in progress, for the current question,
    while it is shown, from a player of the roster who has no submission
    recorded for that question; a SLIDE is not answerable and a VOTING
    question has no right answer and scores 0.  The design document names no
    reason for a session that is not in progress; no question is shown then,
    and the model reports [question_hidden]. *)
Definition submit_answer `{Scoring} (s : Session) (player : string)
    (question_index : Z) (payload : string) (time_taken : float)
    : Session * response :=
  let g := s_game s in
  if negb (is_player s player) then (s, AnswerRejected unknown_player)
  else if negb (question_index =? pg_current_question g)
  then (s, AnswerRejected stale_question)
  else if negb (in_progress s && pg_question_show g)
  then (s, AnswerRejected question_hidden)
  else if bool_decide (is_Some (recorded s player question_index))
  then (s, AnswerRejected duplicate)
  else
    match question_at g question_index with
    | None => (s, AnswerRejected stale_question)
    | Some q =>
        if bool_decide (qq_type q = Some SLIDE)
        then (s, AnswerRejected not_answerable)
        else
          let voting := bool_decide (qq_type q = Some VOTING) in
          let correct := if voting then false else check_answer q payload in
          let t := cap_time (time_limit_ms q) time_taken in
          let a := {| ad_username := player;
                      ad_answer := payload;
                      ad_right := correct;
                      ad_time_taken := t;
                      ad_score := if voting then 0
                                  else score correct t (time_limit_ms q) |} in
          ({| s_game := g;
              s_finished := s_finished s;
              s_roster := s_roster s;
              s_ledger := alter (fun l => l ++ [a]) (Z.to_nat question_index)
                                (s_ledger s) |},
           Accepted a)
    end.

Definition find_player (s : Session) (username : string) : option GamePlayer :=
  List.find (fun p => String.eqb (gp_username p) username) (s_roster s).

(** The roster with the connection identifier of [username] replaced. *)
Definition set_sid (username : string) (sid : option string) (r : list GamePlayer)
    : list GamePlayer :=
  List.map (fun p => if String.eqb (gp_username p) username
                     then {| gp_username := username; gp_sid := sid |}
                     else p) r.

(** Modelled from the spec: [join] of the Player Roster (4.3), missing from
    [models.py].  A new player may join in the lobby only; a username held by
    a disconnected player is reclaimed while the game is not finished. *)
Definition join (s : Session) (username sid : string) (captcha_passed : bool)
    : Session * response :=
  if pg_captcha_enabled (s_game s) && negb captcha_passed
  then (s, JoinRejected captcha_failed)
  else
    match find_player s username with
    | Some p =>
        match gp_sid p with
        | Some _ => (s, JoinRejected username_taken)
        | None =>
            if s_finished s then (s, JoinRejected game_already_started)
            else (set_roster s (set_sid username (Some sid) (s_roster s)),
                  Joined {| gp_username := username; gp_sid := Some sid |})
        end
    | None =>
        match state_of s with
        | LOBBY =>
            let p := {| gp_username := username; gp_sid := Some sid |} in
            (set_roster s (s_roster s ++ [p]), Joined p)
        | _ => (s, JoinRejected game_already_started)
        end
    end.

(** Modelled from the spec: [reconnect] (4.3), missing from [models.py]. *)
Definition reconnect (s : Session) (username new_sid : string) : Session * response :=
  match find_player s username with
  | Some p =>
      match gp_sid p with
      | None =>
          (set_roster s (set_sid username (Some new_sid) (s_roster s)),
           Joined {| gp_username := username; gp_sid := Some new_sid |})
      | Some _ => (s, NotFound)
      end
  | None => (s, NotFound)
  end.

(** Modelled from the spec: [disconnect] (4.3), missing from [models.py]:
    the player stays in the roster, only the connection identifier is
    cleared. *)
Definition disconnect (s : Session) (sid : string) : Session * response :=
  (set_roster s
     (List.map (fun p => if bool_decide (gp_sid p = Some sid)
                         then {| gp_username := gp_username p; gp_sid := None |}
                         else p) (s_roster s)),
   Done).

(** Modelled from the spec: the commands a session receives (section 6),
    missing from [models.py].  The design document serialises the
    operations of one session (section 5), so a history of a session, however
    its submissions were issued, is a sequence of commands. *)
Inductive command : Type :=
  | Start
  | AdvanceQuestion (result_id : UUID) (now : datetime)
  | HideQuestion
  | SubmitAnswer (player : string) (question_index : Z) (payload : string)
      (time_taken : float)
  | Join (username sid : string) (captcha_passed : bool)
  | Reconnect (username new_sid : string)
  | Disconnect (sid : string).

(** Modelled from the spec: one command applied to a session, by the
    operation of sections 4.3 and 4.4 that it names. *)
Definition step `{Scoring} (s : Session) (c : command) : Session * response :=
  match c with
  | Start => start s
  | AdvanceQuestion result_id now => advance_question result_id now s
  | HideQuestion => hide_question s
  | SubmitAnswer player i payload t => submit_answer s player i payload t
  | Join username sid captcha_passed => join s username sid captcha_passed
  | Reconnect username new_sid => reconnect s username new_sid
  | Disconnect sid => disconnect s sid
  end.

(** Modelled from the spec: the session after a sequence of commands. *)
Definition run `{Scoring} (s : Session) (cs : list command) : Session :=
  fold_left (fun s c => fst (step s c)) cs s.

(** The score recorded for a player at a question index, [0] when the player
    has no submission there. *)
Definition score_at (s : Session) (player : string) (i : Z) : Z :=
  match recorded s player i with
  | Some a => ad_score a
  | None => 0
  end.

(** The sum of a player's recorded per-question scores. *)
Definition recorded_total (s : Session) (player : string) : Z :=
  foldr (fun i acc => score_at s player (Z.of_nat i) + acc) 0
    (seq 0 (length (pg_questions (s_game s)))).


(** The ledger of a live session is well formed: one entry per question of
    the quiz, at most one submission per player in an entry, and no negative
    score. *)
Definition ledger_ok (s : Session) : Prop :=
  length (s_ledger s) = length (pg_questions (s_game s)) /\
  Forall (fun l => NoDup (List.map ad_username l)) (s_ledger s) /\
  Forall (Forall (fun a => 0 <= ad_score a)) (s_ledger s).

(** The number of submissions recorded for a player at a question index. *)
Definition count_recorded (s : Session) (player : string) (i : Z) : nat :=
  length (List.filter (by_player player) (submissions s i)).

(** The ledger in the shape of the [GameSession] model: one [GameAnswer1]
    per question index, holding one [GameAnswer2] per accepted submission. *)
Definition as_GameAnswer2 (a : AnswerData) : GameAnswer2 :=
  {| ga2_username := ad_username a;
     ga2_right := ad_right a;
     ga2_answer := ad_answer a |}.

Definition as_GameSession (admin : string) (game_id : string) (s : Session)
    : GameSession :=
  {| gs_admin := admin;
     gs_game_id := game_id;
     gs_answers :=
       imap (fun i l => Some {| ga1_id := Z.of_nat i;
                                ga1_answers := List.map as_GameAnswer2 l |})
         (s_ledger s) |}.

(** ** Concrete inputs

    A Scorer and a validator that meet the contract of [Scoring], and a small
    quiz, for running the definitions above on concrete inputs. *)

(** The binary64 value of an integer. *)
Definition float_of_Z (n : Z) : float := binary_normalize 53 1024 n 0 false.

Definition exact_match (q : QuizQuestion) (payload : string) : bool :=
  match qq_answers q with
  | AnsABCD l => existsb (fun k => abcd_right k && String.eqb (abcd_answer k) payload) l
  | AnsText l => existsb (fun k => String.eqb (text_answer k) payload) l
  | _ => false
  end.

(** 800 points for a correct answer within the limit, 500 after it. *)
Definition two_level_score (correct : bool) (time_taken limit : float) : Z :=
  if correct then (if SFltb time_taken limit then 800 else 500) else 0.

Definition example_scoring : Scoring.
Proof.
  refine {| check_answer := exact_match;
            time_limit_ms := fun _ => float_of_Z 20000;
            score := two_level_score |}.
  - intros [] t l; unfold two_level_score; [destruct (SFltb t l)|]; lia.
  - reflexivity.
Defined.

Definition capital_question : QuizQuestion :=
  {| qq_question := "Capital of France?";
     qq_time := "20";
     qq_type := Some TEXT;
     qq_answers := AnsText [ {| text_answer := "Paris"; text_case_sensitive := true |} ];
     qq_image := None |}.

Definition sum_question : QuizQuestion :=
  {| qq_question := "1 + 1";
     qq_time := "20";
     qq_type := Some ABCD;
     qq_answers := AnsABCD [ {| abcd_right := false; abcd_answer := "1"; abcd_color := None |};
                             {| abcd_right := true; abcd_answer := "2"; abcd_color := None |} ];
     qq_image := None |}.

Definition example_quiz : Quiz :=
  {| quiz_id := 7;
     quiz_public := false;
     quiz_title := "Warm-up";
     quiz_description := Some "two questions";
     quiz_created_at := 0;
     quiz_updated_at := 0;
     quiz_user_id := Some 1;
     quiz_questions := [capital_question; sum_question];
     quiz_imported_from_kahoot := Some false;
     quiz_cover_image := None;
     quiz_background_color := None;
     quiz_background_image := None;
     quiz_kahoot_id := None |}.

(** A game with two players: alice answers the first question, bob nothing. *)
Definition example_history : list command :=
  [ Join "alice" "s1" true; Join "bob" "s2" true; Start;
    AdvanceQuestion 99 1000;
    SubmitAnswer "alice" 0 "Paris" (float_of_Z 1500) ].

Definition example_session : Session := create example_quiz 1 false 42 "123456".

(** The same game played to its end: the second question is shown, nobody
    answers it, and the next advance finishes the game. *)
Definition example_last_round : list command :=
  example_history ++ [ AdvanceQuestion 99 2000 ].

Definition example_world : World :=
  {| w_uuid4 := fun n => Z.of_nat n + 1000;
     w_uuid4_calls := 0;
     w_now := fun n => Z.of_nat n + 5000;
     w_now_calls := 0;
     w_urandom := fun _ _ => Byte.x2a;
     w_urandom_calls := 0 |}.

Definition later_world : World :=
  {| w_uuid4 := fun n => Z.of_nat n + 1000;
     w_uuid4_calls := 17;
     w_now := fun n => Z.of_nat n + 5000;
     w_now_calls := 23;
     w_urandom := fun _ _ => Byte.x2a;
     w_urandom_calls := 5 |}.

Definition alice_args : User_args :=
  {| ua_id := None; ua_email := "alice@example.org"; ua_username := "alice";
     ua_password := None; ua_verified := None; ua_verify_key := None;
     ua_created_at := None; ua_auth_type := None; ua_google_uid := None;
     ua_avatar := []; ua_github_user_id := None; ua_require_password := None;
     ua_backup_code := None; ua_totp_secret := None; ua_storage_used := None |}.

Definition bob_args : User_args :=
  {| ua_id := None; ua_email := "bob@example.org"; ua_username := "bob";
     ua_password := Some "hunter2"; ua_verified := Some true; ua_verify_key := None;
     ua_created_at := None; ua_auth_type := Some GITHUB; ua_google_uid := None;
     ua_avatar := []; ua_github_user_id := Some 12; ua_require_password := None;
     ua_backup_code := None; ua_totp_secret := None; ua_storage_used := None |}.

Definition example_game_args : PlayGame_args :=
  {| pga_quiz_id := IsUUID 7;
     pga_description := "two questions";
     pga_user_id := 1;
     pga_title := "Warm-up";
     pga_questions := [capital_question; sum_question];
     pga_game_id := 42;
     pga_game_pin := "123456";
     pga_started := None;
     pga_captcha_enabled := Some true;
     pga_cover_image := None;
     pga_game_mode := Some "kahoot";
     pga_current_question := None;
     pga_background_color := None;
     pga_background_image := None;
     pga_custom_field := None;
     pga_question_show := None |}.

Definition example_results_args : GameResults_args :=
  {| gra_id := 99;
     gra_quiz := Some 7;
     gra_user := Some 1;
     gra_timestamp := None;
     gra_player_count := Some 2;
     gra_note := None;
     gra_answers := Some [];
     gra_player_scores := None;
     gra_custom_field_data := None;
     gra_title := Some "Warm-up";
     gra_description := Some "two questions";
     gra_questions := Some [capital_question; sum_question] |}.

(** * More of [models.py]

    The models and class methods of the file that the properties above do
    not reach: [QuizInput], the session and storage rows, and the three
    [from_db_model] conversions. *)

(** A payload on which [v[0]] is defined. *)
Definition nonempty_payload (v : answers_t) : bool :=
  match v with
  | AnsABCD [] | AnsText [] | AnsVoting [] | AnsStr EmptyString => false
  | _ => true
  end.

(** ** QuizInput (lines 158-174) *)

Record QuizInput : Type := {
  qi_public : bool;
  qi_title : string;
  qi_description : string;
  qi_cover_image : option string;
  qi_background_color : option string;
  qi_questions : list QuizQuestion;
  qi_background_image : option string
}.

Record QuizInput_args : Type := {
  qia_public : option bool;
  qia_title : string;
  qia_description : string;
  qia_cover_image : option string;
  qia_background_color : option string;
  qia_questions : list QuizQuestion_args;
  qia_background_image : option string
}.

(** Validation of [questions: list[QuizQuestion]]: every element is built
    with the constructor of [QuizQuestion], in order.  A validation error of
    an element is collected and the remaining elements are still validated;
    an exception that pydantic does not catch leaves at the element that
    raises it. *)
Fixpoint validate_questions (l : list QuizQuestion_args)
    : construct_error + list QuizQuestion :=
  match l with
  | [] => inr []
  | a :: l' =>
      match QuizQuestion_init a with
      | inl (Uncaught e) => inl (Uncaught e)
      | inl (ValidationError _) =>
          match validate_questions l' with
          | inl (Uncaught e) => inl (Uncaught e)
          | _ => inl (ValidationError ["questions"])
          end
      | inr q =>
          match validate_questions l' with
          | inr qs => inr (q :: qs)
          | inl err => inl err
          end
      end
  end.

(** [QuizInput(...)]; the fields are validated in the order of the class
    body, [questions] before [background_image]. *)
Definition QuizInput_init (local : string -> bool) (a : QuizInput_args)
    : construct_error + QuizInput :=
  match validate_questions (qia_questions a) with
  | inl (Uncaught e) => inl (Uncaught e)
  | inl (ValidationError fields) =>
      inl (ValidationError
             (fields ++
              match must_come_from_local_cdn local (qia_background_image a) with
              | Raise _ => ["background_image"]
              | Return _ => []
              end))
  | inr questions =>
      match must_come_from_local_cdn local (qia_background_image a) with
      | Raise _ => inl (ValidationError ["background_image"])
      | Return background_image =>
          inr {| qi_public := default false (qia_public a);
                 qi_title := qia_title a;
                 qi_description := qia_description a;
                 qi_cover_image := qia_cover_image a;
                 qi_background_color := qia_background_color a;
                 qi_questions := questions;
                 qi_background_image := background_image |}
      end
  end.

(** ** UserSession (lines 79-95) and InstanceData (lines 207-213) *)

Record UserSession : Type := {
  us_id : UUID;
  us_user : option User;
  us_session_key : string;
  us_created_at : datetime;
  us_ip_address : option string;
  us_user_agent : option string;
  us_last_seen : datetime
}.

Record UserSession_args : Type := {
  usa_id : option UUID;
  usa_user : option User;
  usa_session_key : string;
  usa_created_at : option datetime;
  usa_ip_address : option string;
  usa_user_agent : option string;
  usa_last_seen : option datetime
}.

Definition UserSession_new (m : ModelDefaults) (a : UserSession_args) : IO UserSession :=
  populate (UserSession_id m) (usa_id a) ≫= λ id : UUID,
  populate (UserSession_created_at m) (usa_created_at a) ≫= λ created_at : datetime,
  populate (UserSession_last_seen m) (usa_last_seen a) ≫= λ last_seen : datetime,
  mret {| us_id := id;
          us_user := usa_user a;
          us_session_key := usa_session_key a;
          us_created_at := created_at;
          us_ip_address := usa_ip_address a;
          us_user_agent := usa_user_agent a;
          us_last_seen := last_seen |}.

Record InstanceData : Type := {
  inst_instance_id : UUID
}.

Definition InstanceData_new (m : ModelDefaults) (instance_id : option UUID)
    : IO InstanceData :=
  populate (InstanceData_instance_id m) instance_id ≫= λ id : UUID,
  mret {| inst_instance_id := id |}.

(** ** The public views (lines 359-368 and 407-442) *)

Record OnlyId : Type := {
  only_id : UUID
}.

Record PublicQuizTivityShare : Type := {
  pqs_id : UUID;
  pqs_name : option string;
  pqs_expire_in : option Z;
  pqs_quiztivity : OnlyId;
  pqs_user : OnlyId
}.

Record PublicStorageItem : Type := {
  psi_id : UUID;
  psi_uploaded_at : datetime;
  psi_mime_type : string;
  psi_hash : option string;
  psi_size : Z;
  psi_deleted_at : option datetime;
  psi_alt_text : option string;
  psi_filename : option string;
  psi_thumbhash : option string;
  psi_server : option string;
  psi_imported : bool
}.

(** [class PrivateStorageItem(PublicStorageItem)]: the inherited fields and
    the two lists it adds. *)
Record PrivateStorageItem : Type := {
  prv_public : PublicStorageItem;
  prv_quizzes : list OnlyId;
  prv_quiztivities : list OnlyId
}.

(** How a [from_db_model] fails: reading an attribute of [None], iterating
    over [None], or a value that the target model does not accept. *)
Inductive conversion_error : Type :=
  | AttributeError (attribute : string)
  | NotIterable
  | Rejected (fields : list string).

(** ** [datetime] differences

    [a - b] is a [timedelta], normalised by Python to a number of days (of
    any sign), [0 <= seconds < 86400] and [0 <= microseconds < 1000000]. *)
Record timedelta : Type := {
  td_days : Z;
  td_seconds : Z;
  td_microseconds : Z
}.

Definition datetime_sub (a b : datetime) : timedelta :=
  {| td_days := (a - b) / 86400000000;
     td_seconds := ((a - b) / 1000000) mod 86400;
     td_microseconds := (a - b) mod 1000000 |}.

(** [int(seconds / 60)] for the [seconds] of a [timedelta].  The division is
    a binary64 division and [int] truncates; [seconds] is an integer in
    [0, 86400), whose exact quotient by 60 is either an integer (which
    binary64 represents) or at least 1/60 away from one, while the rounding
    error is below 2^-42: the result is the floor quotient. *)
Definition minutes_of_seconds (seconds : Z) : Z := seconds / 60.

(** The same computation on binary64 values: the quotient, and [int] of a
    finite float (truncation toward zero). *)
Definition truediv (a b : Z) : float := SFdiv 53 1024 (float_of_Z a) (float_of_Z b).

Definition int_of_float (f : float) : option Z :=
  match f with
  | S754_zero _ => Some 0
  | S754_finite s m e =>
      let n := if 0 <=? e then Zpos m * 2 ^ e else Zpos m / 2 ^ (- e) in
      Some (if s then - n else n)
  | S754_infinity _ | S754_nan => None
  end.

Definition is_hex_digit (c : ascii) : bool :=
  existsb (Ascii.eqb c)
    ["0"; "1"; "2"; "3"; "4"; "5"; "6"; "7"; "8"; "9";
     "a"; "b"; "c"; "d"; "e"; "f"]%char.

Fixpoint all_chars (p : ascii -> bool) (s : string) : bool :=
  match s with
  | EmptyString => true
  | String c s' => p c && all_chars p s'
  end.

Section Storage.
(** The page model of a quiztivity is declared in [quiztivity.py]. *)
Variable QuizTivityPage : Type.

(** ** QuizTivity and QuizTivityShare (lines 333-356) *)

Record QuizTivity : Type := {
  qt_id : UUID;
  qt_title : string;
  qt_created_at : datetime;
  qt_user : option User;
  qt_pages : list QuizTivityPage
}.

Record QuizTivityShare : Type := {
  qts_id : UUID;
  qts_name : option string;
  qts_expire_at : option datetime;
  qts_quiztivity : option QuizTivity;
  qts_user : option User
}.

(** [PublicQuizTivityShare.from_db_model] (lines 370-381).  The clock is read
    only when the share has an expiry; the keyword arguments of [cls(...)]
    are evaluated in order, [data.quiztivity.id] before [data.user.id]. *)
Definition PublicQuizTivityShare_from_db_model (data : QuizTivityShare)
    : IO (conversion_error + PublicQuizTivityShare) :=
  (match qts_expire_at data with
   | None => mret None
   | Some expire_at =>
       datetime_now ≫= λ now : datetime,
       mret (Some (minutes_of_seconds (td_seconds (datetime_sub expire_at now))))
   end) ≫= λ expire_in : option Z,
  mret match qts_quiztivity data with
       | None => inl (AttributeError "id")
       | Some quiztivity =>
           match qts_user data with
           | None => inl (AttributeError "id")
           | Some user =>
               inr {| pqs_id := qts_id data;
                      pqs_name := qts_name data;
                      pqs_expire_in := expire_in;
                      pqs_quiztivity := {| only_id := qt_id quiztivity |};
                      pqs_user := {| only_id := user_id user |} |}
           end
       end.

(** The share with another expiry. *)
Definition with_expire_at (data : QuizTivityShare) (expire_at : option datetime)
    : QuizTivityShare :=
  {| qts_id := qts_id data;
     qts_name := qts_name data;
     qts_expire_at := expire_at;
     qts_quiztivity := qts_quiztivity data;
     qts_user := qts_user data |}.

(** ** StorageItem (lines 384-404) *)

Record StorageItem : Type := {
  si_id : UUID;
  si_uploaded_at : datetime;
  si_mime_type : string;
  si_hash : option (list Byte.byte);
  si_user : option User;
  si_size : Z;
  si_storage_path : option string;
  si_deleted_at : option datetime;
  si_quiztivities : option (list QuizTivity);
  si_quizzes : option (list Quiz);
  si_alt_text : option string;
  si_filename : option string;
  si_thumbhash : option string;
  si_server : option string;
  si_imported : option bool
}.

(** The keyword arguments of [StorageItem(...)]; [imported] is nullable and
    has a default, so the caller may pass nothing, [None] or a boolean. *)
Record StorageItem_args : Type := {
  sia_id : UUID;
  sia_uploaded_at : option datetime;
  sia_mime_type : string;
  sia_hash : option (list Byte.byte);
  sia_user : option User;
  sia_size : Z;
  sia_storage_path : option string;
  sia_deleted_at : option datetime;
  sia_quiztivities : option (list QuizTivity);
  sia_quizzes : option (list Quiz);
  sia_alt_text : option string;
  sia_filename : option string;
  sia_thumbhash : option string;
  sia_server : option string;
  sia_imported : option (option bool)
}.

Definition StorageItem_new (m : ModelDefaults) (a : StorageItem_args) : IO StorageItem :=
  populate (StorageItem_uploaded_at m) (sia_uploaded_at a) ≫= λ uploaded_at : datetime,
  mret {| si_id := sia_id a;
          si_uploaded_at := uploaded_at;
          si_mime_type := sia_mime_type a;
          si_hash := sia_hash a;
          si_user := sia_user a;
          si_size := sia_size a;
          si_storage_path := sia_storage_path a;
          si_deleted_at := sia_deleted_at a;
          si_quiztivities := sia_quiztivities a;
          si_quizzes := sia_quizzes a;
          si_alt_text := sia_alt_text a;
          si_filename := sia_filename a;
          si_thumbhash := sia_thumbhash a;
          si_server := sia_server a;
          si_imported := default (Some false) (sia_imported a) |}.

(** The item with other related quiztivities. *)
Definition with_quiztivities (data : StorageItem) (quiztivities : option (list QuizTivity))
    : StorageItem :=
  {| si_id := si_id data;
     si_uploaded_at := si_uploaded_at data;
     si_mime_type := si_mime_type data;
     si_hash := si_hash data;
     si_user := si_user data;
     si_size := si_size data;
     si_storage_path := si_storage_path data;
     si_deleted_at := si_deleted_at data;
     si_quiztivities := quiztivities;
     si_quizzes := si_quizzes data;
     si_alt_text := si_alt_text data;
     si_filename := si_filename data;
     si_thumbhash := si_thumbhash data;
     si_server := si_server data;
     si_imported := si_imported data |}.

(** The call [cls(id=..., ..., imported=data.imported)] shared by the two
    conversions: [imported: bool] does not accept [None]. *)
Definition public_fields (data : StorageItem) (hash_data : option string)
    : conversion_error + PublicStorageItem :=
  match si_imported data with
  | None => inl (Rejected ["imported"])
  | Some imported =>
      inr {| psi_id := si_id data;
             psi_uploaded_at := si_uploaded_at data;
             psi_mime_type := si_mime_type data;
             psi_hash := hash_data;
             psi_size := si_size data;
             psi_deleted_at := si_deleted_at data;
             psi_alt_text := si_alt_text data;
             psi_filename := si_filename data;
             psi_thumbhash := si_thumbhash data;
             psi_server := si_server data;
             psi_imported := imported |}
  end.

(** [hash_data = None; if data.hash is not None: hash_data = data.hash.hex()] *)
Definition hash_data_of (data : StorageItem) : option string :=
  match si_hash data with
  | None => None
  | Some h => Some (hex h)
  end.

(** [PublicStorageItem.from_db_model] (lines 420-437) *)
Definition PublicStorageItem_from_db_model (data : StorageItem)
    : conversion_error + PublicStorageItem :=
  public_fields data (hash_data_of data).

(** [PrivateStorageItem.from_db_model] (lines 444-469).  Both loops run over
    [data.quizzes]; [data.quiztivities] is not read. *)
Definition PrivateStorageItem_from_db_model (data : StorageItem)
    : conversion_error + PrivateStorageItem :=
  let hash_data := hash_data_of data in
  match si_quizzes data with
  | None => inl NotIterable
  | Some data_quizzes =>
      let quizzes :=
        fold_left (fun acc quiz => acc ++ [{| only_id := quiz_id quiz |}])
          data_quizzes [] in
      let quiztivities :=
        fold_left (fun acc quiztivity => acc ++ [{| only_id := quiz_id quiztivity |}])
          data_quizzes [] in
      match public_fields data hash_data with
      | inl err => inl err
      | inr public =>
          inr {| prv_public := public;
                 prv_quizzes := quizzes;
                 prv_quiztivities := quiztivities |}
      end
  end.

End Storage.

Arguments qt_id {QuizTivityPage} _.
Arguments qts_id {QuizTivityPage} _.
Arguments qts_name {QuizTivityPage} _.
Arguments qts_expire_at {QuizTivityPage} _.
Arguments qts_quiztivity {QuizTivityPage} _.
Arguments qts_user {QuizTivityPage} _.
Arguments PublicQuizTivityShare_from_db_model {QuizTivityPage} data _.
Arguments si_id {QuizTivityPage} _.
Arguments si_uploaded_at {QuizTivityPage} _.
Arguments si_hash {QuizTivityPage} _.
Arguments si_quiztivities {QuizTivityPage} _.
Arguments si_quizzes {QuizTivityPage} _.
Arguments si_imported {QuizTivityPage} _.
Arguments StorageItem_new {QuizTivityPage} m a _.
Arguments hash_data_of {QuizTivityPage} data.
Arguments public_fields {QuizTivityPage} data hash_data.
Arguments PublicStorageItem_from_db_model {QuizTivityPage} data.
Arguments PrivateStorageItem_from_db_model {QuizTivityPage} data.
Arguments with_expire_at {QuizTivityPage} data expire_at.
Arguments with_quiztivities {QuizTivityPage} data quiztivities.
Arguments si_mime_type {QuizTivityPage} _.
Arguments si_size {QuizTivityPage} _.

(** The whole seconds at which [int(seconds / 60)] could differ from the
    floor quotient, if the binary64 division were off by one unit: the
    multiples of 60 and their predecessors. *)
Definition boundary_seconds : list Z :=
  flat_map (fun k => [60 * Z.of_nat k; 60 * Z.of_nat k + 59]) (seq 0 1440).

(** A share that expired one minute before the clock of [example_world]. *)
Definition expired_share : QuizTivityShare unit :=
  {| qts_id := 5;
     qts_name := Some "class 7b";
     qts_expire_at := Some (5000 - 60000000);
     qts_quiztivity := Some {| qt_id := 8; qt_title := "Rivers"; qt_created_at := 0;
                               qt_user := None; qt_pages := [] |};
     qts_user := Some (fst (User_new (fst (import_models example_world)) alice_args
                              example_world)) |}.

Definition example_item : StorageItem unit :=
  {| si_id := 3;
     si_uploaded_at := 10;
     si_mime_type := "image/png";
     si_hash := Some [Byte.x00; Byte.xff; Byte.x2a];
     si_user := None;
     si_size := 2048;
     si_storage_path := None;
     si_deleted_at := None;
     si_quiztivities := Some [ {| qt_id := 8; qt_title := "Rivers"; qt_created_at := 0;
                                  qt_user := None; qt_pages := [] |} ];
     si_quizzes := Some [example_quiz];
     si_alt_text := None;
     si_filename := Some "map.png";
     si_thumbhash := None;
     si_server := None;
     si_imported := Some false |}.

Definition example_input : QuizInput_args :=
  {| qia_public := None;
     qia_title := "Warm-up";
     qia_description := "two questions";
     qia_cover_image := None;
     qia_background_color := None;
     qia_questions :=
       [ {| arg_question := "Capital of France?"; arg_time := "20";
            arg_type := TypeGiven "TEXT";
            arg_answers := AnsText [ {| text_answer := "Paris";
                                        text_case_sensitive := true |} ];
            arg_image := None |};
         {| arg_question := "Welcome"; arg_time := "5"; arg_type := TypeNone;
            arg_answers := AnsStr "Hello"; arg_image := None |} ];
     qia_background_image := None |}.



(** * Properties *)

(** ** The validator of [QuizQuestion.answers] *)

Lemma type_is_tag (values : gmap string field_value) (t t' : QuizQuestionType) :
  values !! "type" = Some (FType (Some t)) ->
  type_is values t' = Return (bool_decide (t = t')).
Proof. intros Hty. unfold type_is, getitem. rewrite Hty. reflexivity. Qed.

Lemma type_is_None (values : gmap string field_value) (t' : QuizQuestionType) :
  values !! "type" = Some (FType None) ->
  type_is values t' = Return false.
Proof. intros Hty. unfold type_is, getitem. rewrite Hty. reflexivity. Qed.

Lemma type_is_missing (values : gmap string field_value) (t' : QuizQuestionType) :
  values !! "type" = None ->
  type_is values t' = Raise (KeyError "type").
Proof. intros Hty. unfold type_is, getitem. rewrite Hty. reflexivity. Qed.

(** With a tag in [values], the validator reduces to the one check of that
    tag. *)
Ltac run_validator Hty :=
  unfold answers_not_none_if_abcd_type;
  repeat rewrite (type_is_tag _ _ _ Hty);
  cbn.

Lemma values_type_valid (a : QuizQuestion_args) (t : option QuizQuestionType) :
  validate_type (arg_type a) = Some t ->
  values_before_answers a !! "type" = Some (FType t).
Proof.
  intros Hv. unfold values_before_answers. rewrite Hv.
  apply lookup_insert_eq.
Qed.

Lemma values_type_invalid (a : QuizQuestion_args) :
  validate_type (arg_type a) = None ->
  values_before_answers a !! "type" = None.
Proof.
  intros Hv. unfold values_before_answers. rewrite Hv.
  rewrite !lookup_insert_ne by discriminate. apply lookup_empty.
Qed.

(** What the validator does for each tag and each payload. *)
Lemma validator_accepts_iff_shape (values : gmap string field_value)
    (t : QuizQuestionType) (v : answers_t) :
  values !! "type" = Some (FType (Some t)) ->
  returned (answers_not_none_if_abcd_type v values) = true ->
  shape_matches t v = true /\ empty_list v = false /\ v ≠ AnsStr EmptyString /\
  answers_not_none_if_abcd_type v values = Return v.
Proof.
  intros Hty.
  destruct t; destruct v as [[|x l]|r|[|x l]|[|x l]|[|c s]];
    run_validator Hty; intros Hret; try discriminate Hret;
    repeat split; congruence.
Qed.

Lemma validator_untagged (values : gmap string field_value) (v : answers_t) :
  values !! "type" = Some (FType None) ->
  answers_not_none_if_abcd_type v values = Return v.
Proof.
  intros Hty. unfold answers_not_none_if_abcd_type.
  repeat rewrite (type_is_None _ _ Hty). reflexivity.
Qed.

Lemma validator_no_type (values : gmap string field_value) (v : answers_t) :
  values !! "type" = None ->
  answers_not_none_if_abcd_type v values = Raise (KeyError "type").
Proof.
  intros Hty. unfold answers_not_none_if_abcd_type.
  rewrite (type_is_missing _ _ Hty). reflexivity.
Qed.

Lemma init_accepted (a : QuizQuestion_args) (q : QuizQuestion) :
  QuizQuestion_init a = inr q ->
  exists t, validate_type (arg_type a) = Some t /\ qq_type q = t /\
            qq_answers q = arg_answers a /\
            answers_not_none_if_abcd_type (arg_answers a) (values_before_answers a)
              = Return (arg_answers a).
Proof.
  unfold QuizQuestion_init. intros Hq.
  destruct (validate_type (arg_type a)) as [t|] eqn:Hv.
  - pose proof (values_type_valid a t Hv) as Hty. exists t.
    destruct t as [t|].
    + destruct (answers_not_none_if_abcd_type (arg_answers a) (values_before_answers a))
        as [v|e] eqn:Hval.
      * destruct (validator_accepts_iff_shape _ _ (arg_answers a) Hty) as (_ & _ & _ & Heq).
        { rewrite Hval. reflexivity. }
        rewrite Heq in Hval. injection Hval as <-.
        injection Hq as <-. auto.
      * destruct e; discriminate Hq.
    + rewrite (validator_untagged _ _ Hty) in Hq |- *. injection Hq as <-. auto.
  - rewrite (validator_no_type _ _ (values_type_invalid a Hv)) in Hq. discriminate Hq.
Qed.

Lemma validator_rejects_mismatch (values : gmap string field_value)
    (t : QuizQuestionType) (v : answers_t) :
  values !! "type" = Some (FType (Some t)) ->
  shape_matches t v = false ->
  exists e, answers_not_none_if_abcd_type v values = Raise e.
Proof.
  intros Hty Hshape.
  destruct (answers_not_none_if_abcd_type v values) as [v'|e] eqn:Hval; [|eauto].
  destruct (validator_accepts_iff_shape values t v Hty) as (Hm & _).
  - rewrite Hval. reflexivity.
  - congruence.
Qed.

Lemma init_raise (a : QuizQuestion_args) (e : exn) :
  answers_not_none_if_abcd_type (arg_answers a) (values_before_answers a) = Raise e ->
  exists err, QuizQuestion_init a = inl err.
Proof.
  intros Hval. unfold QuizQuestion_init. rewrite Hval.
  destruct e; eauto.
Qed.

(** C1. A question that the constructor accepts and that carries a type tag
    has an answers payload of the shape of that tag: a list of ABCDQuizAnswer
    for ABCD and CHECK, a RangeQuizAnswer for RANGE, a list of
    VotingQuizAnswer for VOTING and ORDER, a list of TextQuizAnswer for TEXT
    and a string for SLIDE; and arguments whose payload does not have the
    shape of their tag are rejected: the constructor raises. *)
Theorem answers_shape_matches_type_tag (a : QuizQuestion_args) :
  (forall (q : QuizQuestion) (t : QuizQuestionType),
      QuizQuestion_init a = inr q ->
      qq_type q = Some t ->
      shape_matches t (qq_answers q) = true) /\
  (forall t : QuizQuestionType,
      validate_type (arg_type a) = Some (Some t) ->
      shape_matches t (arg_answers a) = false ->
      exists err, QuizQuestion_init a = inl err).
Proof.
  split.
  - intros q t Hq Ht.
    destruct (init_accepted a q Hq) as (t' & Hv & Hty & Hans & Hval).
    subst t'. rewrite Ht in Hv. rewrite Hans.
    destruct (validator_accepts_iff_shape _ t (arg_answers a) (values_type_valid a _ Hv))
      as (Hm & _); [rewrite Hval; reflexivity | exact Hm].
  - intros t Hv Hshape.
    destruct (validator_rejects_mismatch _ t (arg_answers a) (values_type_valid a _ Hv) Hshape)
      as (e & He).
    exact (init_raise a e He).
Qed.

Lemma answers_shape_matches_type_tag_witness :
  shape_matches SLIDE (AnsStr "Welcome") = true /\
  exists err,
    QuizQuestion_init
      {| arg_question := "Intro"; arg_time := "5"; arg_type := TypeGiven "RANGE";
         arg_answers := AnsStr "Welcome"; arg_image := None |} = inl err.
Proof.
  split.
  - exact (proj1 (answers_shape_matches_type_tag
                    {| arg_question := "Intro"; arg_time := "5";
                       arg_type := TypeGiven "SLIDE";
                       arg_answers := AnsStr "Welcome"; arg_image := None |})
                 {| qq_question := "Intro"; qq_time := "5"; qq_type := Some SLIDE;
                    qq_answers := AnsStr "Welcome"; qq_image := None |}
                 SLIDE eq_refl eq_refl).
  - exact (proj2 (answers_shape_matches_type_tag
                    {| arg_question := "Intro"; arg_time := "5";
                       arg_type := TypeGiven "RANGE";
                       arg_answers := AnsStr "Welcome"; arg_image := None |})
                 RANGE eq_refl eq_refl).
Defined.

(** A question built with an explicit [type=None] is not checked at all:
    every payload of the annotated union is accepted. *)
Lemma untagged_question_is_not_checked (a : QuizQuestion_args) :
  arg_type a = TypeNone ->
  QuizQuestion_init a
  = inr {| qq_question := arg_question a; qq_time := arg_time a; qq_type := None;
           qq_answers := arg_answers a; qq_image := arg_image a |}.
Proof.
  intros Hnone. unfold QuizQuestion_init.
  assert (Hv : validate_type (arg_type a) = Some None) by (rewrite Hnone; reflexivity).
  rewrite (validator_untagged _ _ (values_type_valid a None Hv)), Hv. reflexivity.
Qed.

Lemma of_value_sound (s : string) (t : QuizQuestionType) :
  QuizQuestionType_of_value s = Some t ->
  QuizQuestionType_value t = s /\ In t QuizQuestionType_members.
Proof.
  unfold QuizQuestionType_of_value. intros Hfind.
  apply List.find_some in Hfind as [Hin Heq].
  apply String.eqb_eq in Heq. auto.
Qed.

(** C6, as stated, fails: a question built with an explicit [type=None] is
    accepted, and it carries no tag. *)
Lemma question_without_type_tag :
  QuizQuestion_init
    {| arg_question := "Intro"; arg_time := "5"; arg_type := TypeNone;
       arg_answers := AnsStr "Welcome"; arg_image := None |}
  = inr {| qq_question := "Intro"; qq_time := "5"; qq_type := None;
           qq_answers := AnsStr "Welcome"; qq_image := None |} /\
  ~ (forall (a : QuizQuestion_args) (q : QuizQuestion),
        QuizQuestion_init a = inr q ->
        exists t, In t QuizQuestionType_members /\ qq_type q = Some t).
Proof.
  split; [reflexivity|].
  intros Hall.
  destruct (Hall {| arg_question := "Intro"; arg_time := "5"; arg_type := TypeNone;
                    arg_answers := AnsStr "Welcome"; arg_image := None |} _ eq_refl)
    as (t & _ & Ht).
  discriminate Ht.
Qed.

(** C6, amended. The type of an accepted question is either [None] or one of
    the seven tags ABCD, RANGE, VOTING, SLIDE, TEXT, ORDER, CHECK: it is ABCD
    when the caller passes no type, [None] when the caller passes [None], and
    otherwise the tag whose value is the string passed. *)
Theorem type_tag_is_None_or_member (a : QuizQuestion_args) (q : QuizQuestion) :
  QuizQuestion_init a = inr q ->
  (qq_type q = None \/
   exists t, In t QuizQuestionType_members /\ qq_type q = Some t) /\
  match arg_type a with
  | TypeOmitted => qq_type q = Some ABCD
  | TypeNone => qq_type q = None
  | TypeGiven s => exists t, QuizQuestionType_value t = s /\ qq_type q = Some t
  end.
Proof.
  intros Hq.
  destruct (init_accepted a q Hq) as (t & Hv & Hty & _). subst t.
  unfold validate_type in Hv.
  destruct (arg_type a) as [| |s].
  - injection Hv as <-. split; [right; exists ABCD; simpl; auto | reflexivity].
  - injection Hv as <-. split; [left|]; reflexivity.
  - destruct (QuizQuestionType_of_value s) as [t|] eqn:Hof; [|discriminate Hv].
    injection Hv as <-.
    destruct (of_value_sound s t Hof) as [Hval Hin].
    split; [right|]; exists t; auto.
Qed.

Lemma type_tag_is_None_or_member_witness :
  (Some CHECK = None \/
   exists t, In t QuizQuestionType_members /\ Some CHECK = Some t) /\
  exists t, QuizQuestionType_value t = "CHECK" /\ Some CHECK = Some t.
Proof.
  exact (type_tag_is_None_or_member
           {| arg_question := "Pick"; arg_time := "30"; arg_type := TypeGiven "CHECK";
              arg_answers := AnsABCD [ {| abcd_right := true; abcd_answer := "a";
                                          abcd_color := None |} ];
              arg_image := None |}
           {| qq_question := "Pick"; qq_time := "30"; qq_type := Some CHECK;
              qq_answers := AnsABCD [ {| abcd_right := true; abcd_answer := "a";
                                         abcd_color := None |} ];
              qq_image := None |}
           eq_refl).
Defined.

(** C9. For each of the tags ABCD, VOTING, TEXT, ORDER, SLIDE and CHECK, the
    validator applied to an empty answers list reaches [v[0]] and raises
    IndexError; the exception is not a validation error, and leaves the
    constructor uncaught. *)
Theorem empty_answers_raise_IndexError (t : QuizQuestionType) (v : answers_t) :
  t ≠ RANGE ->
  empty_list v = true ->
  (forall values : gmap string field_value,
      values !! "type" = Some (FType (Some t)) ->
      answers_not_none_if_abcd_type v values = Raise IndexError) /\
  (forall a : QuizQuestion_args,
      validate_type (arg_type a) = Some (Some t) ->
      arg_answers a = v ->
      QuizQuestion_init a = inl (Uncaught IndexError)).
Proof.
  intros Ht Hempty.
  assert (Hval : forall values : gmap string field_value,
             values !! "type" = Some (FType (Some t)) ->
             answers_not_none_if_abcd_type v values = Raise IndexError).
  { intros values Hty.
    destruct v as [[|x l]|r|[|x l]|[|x l]|s]; try discriminate Hempty;
      destruct t; try congruence; run_validator Hty; reflexivity. }
  split; [exact Hval|].
  intros a Hv Hans. unfold QuizQuestion_init.
  rewrite Hans, (Hval _ (values_type_valid a _ Hv)). reflexivity.
Qed.

Lemma empty_answers_raise_IndexError_witness :
  QuizQuestion_init
    {| arg_question := "Capital of France?"; arg_time := "20";
       arg_type := TypeGiven "TEXT"; arg_answers := AnsABCD []; arg_image := None |}
  = inl (Uncaught IndexError).
Proof.
  refine (proj2 (empty_answers_raise_IndexError TEXT (AnsABCD []) _ eq_refl)
            {| arg_question := "Capital of France?"; arg_time := "20";
               arg_type := TypeGiven "TEXT"; arg_answers := AnsABCD [];
               arg_image := None |} eq_refl eq_refl).
  discriminate.
Defined.

(** C10. The check made for ORDER is the check made for VOTING: both require
    the first element of the payload to be a VotingQuizAnswer.  For every
    payload, the validator returns with tag ORDER exactly when the payload is
    a list whose first element is a VotingQuizAnswer, and so it does with tag
    VOTING; hence it returns for one tag exactly when it returns for the
    other, and the constructor accepts a question tagged ORDER exactly when
    it accepts the same question tagged VOTING. *)
Theorem order_check_is_voting_check (v : answers_t) (question time : string)
    (image : option string) (values : gmap string field_value) :
  (returned (answers_not_none_if_abcd_type v (<["type" := FType (Some ORDER)]> values))
   = true <-> exists x l, v = AnsVoting (x :: l)) /\
  (returned (answers_not_none_if_abcd_type v (<["type" := FType (Some VOTING)]> values))
   = true <-> exists x l, v = AnsVoting (x :: l)) /\
  returned (answers_not_none_if_abcd_type v (<["type" := FType (Some ORDER)]> values))
  = returned (answers_not_none_if_abcd_type v (<["type" := FType (Some VOTING)]> values)) /\
  (accepts {| arg_question := question; arg_time := time; arg_type := TypeGiven "ORDER";
              arg_answers := v; arg_image := image |} = true
   <-> exists x l, v = AnsVoting (x :: l)) /\
  (accepts {| arg_question := question; arg_time := time; arg_type := TypeGiven "VOTING";
              arg_answers := v; arg_image := image |} = true
   <-> exists x l, v = AnsVoting (x :: l)) /\
  accepts {| arg_question := question; arg_time := time; arg_type := TypeGiven "ORDER";
             arg_answers := v; arg_image := image |}
  = accepts {| arg_question := question; arg_time := time; arg_type := TypeGiven "VOTING";
               arg_answers := v; arg_image := image |}.
Proof.
  assert (Hval : forall (t : QuizQuestionType) (vals : gmap string field_value),
             t = ORDER \/ t = VOTING ->
             vals !! "type" = Some (FType (Some t)) ->
             returned (answers_not_none_if_abcd_type v vals)
             = match v with AnsVoting (_ :: _) => true | _ => false end).
  { intros t vals [-> | ->] Hty;
      destruct v as [[|x l]|r|[|x l]|[|x l]|[|c s]]; run_validator Hty; reflexivity. }
  assert (Hshape : match v with AnsVoting (_ :: _) => true | _ => false end = true
                   <-> exists x l, v = AnsVoting (x :: l)).
  { destruct v as [[|x l]|r|[|x l]|[|x l]|s]; split;
      try discriminate; try (intros (x0 & l0 & Hv); discriminate Hv); eauto. }
  assert (Hacc : forall (t : QuizQuestionType) (a : QuizQuestion_args),
             t = ORDER \/ t = VOTING ->
             validate_type (arg_type a) = Some (Some t) ->
             arg_answers a = v ->
             accepts a = match v with AnsVoting (_ :: _) => true | _ => false end).
  { intros t a Ht Hv Hans. unfold accepts, QuizQuestion_init.
    pose proof (Hval t (values_before_answers a) Ht (values_type_valid a _ Hv)) as Hr.
    rewrite Hans, Hv. 
    destruct (answers_not_none_if_abcd_type v (values_before_answers a)) as [?|[]];
      cbn in Hr; rewrite <- Hr; reflexivity. }
  pose proof (Hval ORDER (<["type" := FType (Some ORDER)]> values)
                (or_introl eq_refl) (lookup_insert_eq _ _ _)) as Ho.
  pose proof (Hval VOTING (<["type" := FType (Some VOTING)]> values)
                (or_intror eq_refl) (lookup_insert_eq _ _ _)) as Hvo.
  pose proof (Hacc ORDER {| arg_question := question; arg_time := time;
                            arg_type := TypeGiven "ORDER"; arg_answers := v;
                            arg_image := image |}
                (or_introl eq_refl) eq_refl eq_refl) as Hao.
  pose proof (Hacc VOTING {| arg_question := question; arg_time := time;
                             arg_type := TypeGiven "VOTING"; arg_answers := v;
                             arg_image := image |}
                (or_intror eq_refl) eq_refl eq_refl) as Hav.
  rewrite Ho, Hvo, Hao, Hav. tauto.
Qed.

(** ** Defaults of [PlayGame] *)

(** C3. A game built without explicit values for [current_question],
    [started] and [question_show] is in lobby state: [current_question] is
    -1, [started] is false, and [question_show], the gate on submissions, is
    false. *)
Theorem new_game_is_in_lobby (a : PlayGame_args) :
  pga_current_question a = None ->
  pga_started a = None ->
  pga_question_show a = None ->
  pg_current_question (PlayGame_init a) = -1 /\
  pg_started (PlayGame_init a) = false /\
  pg_question_show (PlayGame_init a) = false.
Proof.
  intros Hcur Hstarted Hshow. unfold PlayGame_init. cbn.
  rewrite Hcur, Hstarted, Hshow. auto.
Qed.

Lemma new_game_is_in_lobby_witness :
  pg_current_question (PlayGame_init example_game_args) = -1 /\
  pg_started (PlayGame_init example_game_args) = false /\
  pg_question_show (PlayGame_init example_game_args) = false.
Proof. exact (new_game_is_in_lobby example_game_args eq_refl eq_refl eq_refl). Defined.


(** ** The copy of the quiz in [GameResults] *)

Lemma execute_keeps_results (db : Database) (st : quiz_statement) :
  game_results_table (execute db st) = game_results_table db.
Proof. destruct st; reflexivity. Qed.

Lemma execute_all_keeps_results (sts : list quiz_statement) (db : Database) :
  game_results_table (execute_all db sts) = game_results_table db.
Proof.
  unfold execute_all. revert db.
  induction sts as [|st sts IH]; intros db; [reflexivity|].
  cbn. rewrite IH. apply execute_keeps_results.
Qed.

(** C7. A GameResults row holds its own title, description and questions:
    the three are mandatory (a row is built only when all three are given,
    and holds exactly what was given), and since they are columns of the row
    itself, reading the row back gives the same title, description and
    questions after any updates and deletions of rows of the quiz table. *)
Theorem results_keep_their_copy_of_the_quiz (m : ModelDefaults) (w : World)
    (a : GameResults_args) :
  (forall r : GameResults,
      fst (GameResults_new m a w) = inr r ->
      gra_title a = Some (gr_title r) /\
      gra_description a = Some (gr_description r) /\
      gra_questions a = Some (gr_questions r)) /\
  (gra_title a = None \/ gra_description a = None \/ gra_questions a = None ->
   exists err, fst (GameResults_new m a w) = inl err) /\
  (forall (db : Database) (sts : list quiz_statement) (r : GameResults),
      results_get db (gra_id a) = Some r ->
      results_get (execute_all db sts) (gra_id a) = Some r).
Proof.
  unfold GameResults_new.
  destruct (populate (GameResults_timestamp m) (gra_timestamp a) w) as [ts w'] eqn:Hts.
  unfold mbind, IO_bind, mret, IO_ret. rewrite Hts. cbn [fst].
  split; [|split].
  - intros r Hr.
    destruct (gra_answers a), (gra_title a), (gra_description a), (gra_questions a);
      try discriminate Hr.
    injection Hr as <-. auto.
  - intros Hmissing.
    destruct (gra_answers a), (gra_title a), (gra_description a), (gra_questions a);
      eauto; destruct Hmissing as [H|[H|H]]; discriminate H.
  - intros db sts r Hget. unfold results_get in *.
    rewrite execute_all_keeps_results. exact Hget.
Qed.

Lemma results_keep_their_copy_of_the_quiz_witness :
  Some "Warm-up" = Some "Warm-up" /\
  Some "two questions" = Some "two questions" /\
  Some [capital_question; sum_question] = Some [capital_question; sum_question].
Proof.
  exact (proj1 (results_keep_their_copy_of_the_quiz
                  (fst (import_models example_world)) later_world
                  example_results_args)
               {| gr_id := 99; gr_quiz := Some 7; gr_user := Some 1;
                  gr_timestamp := 5005; gr_player_count := 2; gr_note := None;
                  gr_answers := []; gr_player_scores := None;
                  gr_custom_field_data := None; gr_title := "Warm-up";
                  gr_description := "two questions";
                  gr_questions := [capital_question; sum_question] |}
               eq_refl).
Defined.

(** ** Column defaults *)

(** The defaults stored by the import: each is the value that its call
    returned at that time. *)
Lemma import_models_defaults (w0 : World) :
  fst (import_models w0) =
  {| User_id := DefaultValue (w_uuid4 w0 (w_uuid4_calls w0));
     User_created_at := DefaultValue (w_now w0 (w_now_calls w0));
     User_backup_code :=
       DefaultValue (hex (List.map (w_urandom w0 (w_urandom_calls w0)) (seq 0 32)));
     UserSession_id := DefaultValue (w_uuid4 w0 (S (w_uuid4_calls w0)));
     UserSession_created_at := DefaultValue (w_now w0 (S (w_now_calls w0)));
     UserSession_last_seen := DefaultValue (w_now w0 (S (S (w_now_calls w0))));
     Quiz_id := DefaultValue (w_uuid4 w0 (S (S (w_uuid4_calls w0))));
     Quiz_created_at := DefaultValue (w_now w0 (S (S (S (w_now_calls w0)))));
     Quiz_updated_at := DefaultValue (w_now w0 (S (S (S (S (w_now_calls w0))))));
     InstanceData_instance_id := DefaultValue (w_uuid4 w0 (S (S (S (w_uuid4_calls w0)))));
     GameResults_timestamp :=
       DefaultValue (w_now w0 (S (S (S (S (S (w_now_calls w0)))))));
     StorageItem_uploaded_at :=
       DefaultValue (w_now w0 (S (S (S (S (S (S (w_now_calls w0)))))))) |}.
Proof. reflexivity. Qed.

Lemma populate_default_value {A} (a : A) (w : World) :
  populate (DefaultValue a) None w = (a, w).
Proof. reflexivity. Qed.

Lemma User_new_fields (m : ModelDefaults) (a : User_args) (w : World) :
  user_id (fst (User_new m a w)) = fst (populate (User_id m) (ua_id a) w) /\
  user_created_at (fst (User_new m a w))
  = fst (populate (User_created_at m) (ua_created_at a)
           (snd (populate (User_id m) (ua_id a) w))) /\
  user_backup_code (fst (User_new m a w))
  = fst (populate (User_backup_code m) (ua_backup_code a)
           (snd (populate (User_created_at m) (ua_created_at a)
                   (snd (populate (User_id m) (ua_id a) w))))).
Proof.
  unfold User_new, mbind, IO_bind, mret, IO_ret.
  destruct (populate (User_id m) (ua_id a) w) as [x w1].
  destruct (populate (User_created_at m) (ua_created_at a) w1) as [y w2] eqn:Hy.
  destruct (populate (User_backup_code m) (ua_backup_code a) w2) as [z w3] eqn:Hz.
  cbn. rewrite Hy. cbn. rewrite Hz. auto.
Qed.

Lemma Quiz_new_id (local : string -> bool) (m : ModelDefaults) (a : Quiz_args)
    (w : World) (q : Quiz) :
  fst (Quiz_new local m a w) = inr q ->
  quiz_id q = fst (populate (Quiz_id m) (qa_id a) w).
Proof.
  unfold Quiz_new, mbind, IO_bind, mret, IO_ret.
  destruct (populate (Quiz_id m) (qa_id a) w) as [x w1].
  destruct (populate (Quiz_created_at m) (qa_created_at a) w1) as [y w2].
  destruct (populate (Quiz_updated_at m) (qa_updated_at a) w2) as [z w3].
  cbn [fst]. intros Hq.
  destruct (qa_title a), (qa_questions a),
    (must_come_from_local_cdn local (qa_background_image a)); try discriminate Hq.
  injection Hq as <-. reflexivity.
Qed.

Lemma GameResults_new_timestamp (m : ModelDefaults) (a : GameResults_args)
    (w : World) (r : GameResults) :
  fst (GameResults_new m a w) = inr r ->
  gr_timestamp r = fst (populate (GameResults_timestamp m) (gra_timestamp a) w).
Proof.
  unfold GameResults_new, mbind, IO_bind, mret, IO_ret.
  destruct (populate (GameResults_timestamp m) (gra_timestamp a) w) as [x w1].
  cbn [fst]. intros Hr.
  destruct (gra_answers a), (gra_title a), (gra_description a), (gra_questions a);
    try discriminate Hr.
  injection Hr as <-. reflexivity.
Qed.

(** C8. The column defaults are computed once, while the module is imported,
    and not per row.  Whatever the state of the world when they are built,
    two User rows built without an explicit id have the same id, the id drawn
    at import; likewise for [created_at] and [backup_code]; two Quiz rows
    built without an explicit id have the same id; and two GameResults rows
    built without an explicit timestamp have the same timestamp. *)
Theorem defaults_are_computed_once (w0 : World) :
  let m := fst (import_models w0) in
  (forall (a1 a2 : User_args) (w1 w2 : World),
      (ua_id a1 = None -> ua_id a2 = None ->
       user_id (fst (User_new m a1 w1)) = user_id (fst (User_new m a2 w2)) /\
       user_id (fst (User_new m a1 w1)) = w_uuid4 w0 (w_uuid4_calls w0)) /\
      (ua_created_at a1 = None -> ua_created_at a2 = None ->
       user_created_at (fst (User_new m a1 w1)) = user_created_at (fst (User_new m a2 w2)) /\
       user_created_at (fst (User_new m a1 w1)) = w_now w0 (w_now_calls w0)) /\
      (ua_backup_code a1 = None -> ua_backup_code a2 = None ->
       user_backup_code (fst (User_new m a1 w1)) = user_backup_code (fst (User_new m a2 w2)))) /\
  (forall (local : string -> bool) (a1 a2 : Quiz_args) (w1 w2 : World) (q1 q2 : Quiz),
      qa_id a1 = None -> qa_id a2 = None ->
      fst (Quiz_new local m a1 w1) = inr q1 ->
      fst (Quiz_new local m a2 w2) = inr q2 ->
      quiz_id q1 = quiz_id q2) /\
  (forall (a1 a2 : GameResults_args) (w1 w2 : World) (r1 r2 : GameResults),
      gra_timestamp a1 = None -> gra_timestamp a2 = None ->
      fst (GameResults_new m a1 w1) = inr r1 ->
      fst (GameResults_new m a2 w2) = inr r2 ->
      gr_timestamp r1 = gr_timestamp r2).
Proof.
  intros m.
  pose proof (import_models_defaults w0) as Hm. fold m in Hm.
  assert (Hid : User_id m = DefaultValue (w_uuid4 w0 (w_uuid4_calls w0)))
    by (rewrite Hm; reflexivity).
  assert (Hca : User_created_at m = DefaultValue (w_now w0 (w_now_calls w0)))
    by (rewrite Hm; reflexivity).
  assert (Hbc : exists code, User_backup_code m = DefaultValue code)
    by (rewrite Hm; eexists; reflexivity).
  assert (Hqid : exists id, Quiz_id m = DefaultValue id)
    by (rewrite Hm; eexists; reflexivity).
  assert (Hts : exists ts, GameResults_timestamp m = DefaultValue ts)
    by (rewrite Hm; eexists; reflexivity).
  clear Hm.
  clearbody m.
  destruct Hbc as [code Hbc], Hqid as [qid Hqid], Hts as [ts Hts].
  split; [|split].
  - intros a1 a2 w1 w2.
    destruct (User_new_fields m a1 w1) as (Hid1 & Hc1 & Hb1).
    destruct (User_new_fields m a2 w2) as (Hid2 & Hc2 & Hb2).
    rewrite Hid1, Hid2, Hc1, Hc2, Hb1, Hb2, Hid, Hca, Hbc.
    split; [|split]; intros E1 E2; rewrite E1, E2; auto.
  - intros local a1 a2 w1 w2 q1 q2 E1 E2 H1 H2.
    rewrite (Quiz_new_id _ _ _ _ _ H1), (Quiz_new_id _ _ _ _ _ H2).
    rewrite Hqid, E1, E2. reflexivity.
  - intros a1 a2 w1 w2 r1 r2 E1 E2 H1 H2.
    rewrite (GameResults_new_timestamp _ _ _ _ H1), (GameResults_new_timestamp _ _ _ _ H2).
    rewrite Hts, E1, E2. reflexivity.
Qed.

Lemma defaults_are_computed_once_witness :
  user_id (fst (User_new (fst (import_models example_world)) alice_args later_world))
  = user_id (fst (User_new (fst (import_models example_world)) bob_args example_world)) /\
  user_id (fst (User_new (fst (import_models example_world)) alice_args later_world))
  = 1000.
Proof.
  exact (proj1 (proj1 (defaults_are_computed_once example_world)
                  alice_args bob_args later_world example_world)
           eq_refl eq_refl).
Defined.

(** ** The answer ledger of a live session *)

Lemma find_app_Some {A} (f : A -> bool) (l l' : list A) (a : A) :
  List.find f l = Some a -> List.find f (l ++ l') = Some a.
Proof.
  induction l as [|x l IH]; cbn; [discriminate|].
  destruct (f x); auto.
Qed.

Lemma find_None_not_in (player : string) (l : list AnswerData) :
  List.find (by_player player) l = None ->
  ~ In player (List.map ad_username l).
Proof.
  intros Hfind Hin. apply in_map_iff in Hin as (a & Hname & Hin).
  pose proof (List.find_none _ _ Hfind a Hin) as Hf.
  unfold by_player in Hf. rewrite Hname, String.eqb_refl in Hf. discriminate Hf.
Qed.

Lemma filter_absent (player : string) (l : list AnswerData) :
  ~ In player (List.map ad_username l) ->
  List.filter (by_player player) l = [].
Proof.
  induction l as [|x l IH]; cbn; [reflexivity|]. intros Hnot.
  destruct (by_player player x) eqn:Hx.
  - exfalso. apply Hnot. left. apply String.eqb_eq. exact Hx.
  - apply IH. intros Hin. apply Hnot. right. exact Hin.
Qed.

(** In an entry without duplicates, the submissions of a player are the one
    that [find] returns, if any. *)
Lemma filter_is_find (player : string) (l : list AnswerData) :
  NoDup (List.map ad_username l) ->
  List.filter (by_player player) l
  = match List.find (by_player player) l with
    | Some a => [a]
    | None => []
    end.
Proof.
  induction l as [|x l IH]; cbn; [reflexivity|]. intros Hnd.
  apply NoDup_cons in Hnd as [Hx Hnd].
  destruct (by_player player x) eqn:Hb.
  - apply String.eqb_eq in Hb. rewrite filter_absent; [reflexivity|].
    rewrite <- Hb. rewrite list_elem_of_In in Hx. exact Hx.
  - apply IH. exact Hnd.
Qed.

Section Engine.
Context `{Scoring}.

Lemma create_ledger_ok (quiz : Quiz) (host_id : UUID) (captcha_enabled : bool)
    (game_id : UUID) (game_pin : string) :
  ledger_ok (create quiz host_id captcha_enabled game_id game_pin).
Proof.
  unfold ledger_ok, create. cbn. rewrite length_replicate.
  repeat split.
  - apply Forall_forall. intros l Hl. apply elem_of_replicate in Hl as [-> _].
    constructor.
  - apply Forall_forall. intros l Hl. apply elem_of_replicate in Hl as [-> _].
    constructor.
Qed.

(** What an accepted submission does; every other outcome leaves the
    session as it was. *)
Lemma submit_answer_cases (s : Session) (player : string) (i : Z)
    (payload : string) (t : float) :
  (exists why, submit_answer s player i payload t = (s, AnswerRejected why)) \/
  (exists (q : QuizQuestion) (a : AnswerData),
      0 <= i /\
      pg_questions (s_game s) !! Z.to_nat i = Some q /\
      recorded s player i = None /\
      ad_username a = player /\
      0 <= ad_score a /\
      submit_answer s player i payload t
      = ({| s_game := s_game s; s_finished := s_finished s;
            s_roster := s_roster s;
            s_ledger := alter (fun l => l ++ [a]) (Z.to_nat i) (s_ledger s) |},
         Accepted a)).
Proof.
  unfold submit_answer.
  destruct (negb (is_player s player)); [eauto|].
  destruct (negb (i =? pg_current_question (s_game s))); [eauto|].
  destruct (negb (in_progress s && pg_question_show (s_game s))); [eauto|].
  destruct (bool_decide (is_Some (recorded s player i))) eqn:Hrec; [eauto|].
  apply bool_decide_eq_false in Hrec.
  destruct (question_at (s_game s) i) as [q|] eqn:Hq; [|eauto].
  destruct (bool_decide (qq_type q = Some SLIDE)); [eauto|].
  unfold question_at in Hq.
  destruct (i <? 0) eqn:Hneg; [discriminate Hq|].
  apply Z.ltb_ge in Hneg.
  right. eexists q, _. repeat split; try reflexivity; try assumption.
  - destruct (recorded s player i); [exfalso; apply Hrec; eauto | reflexivity].
  - cbn. destruct (bool_decide (qq_type q = Some VOTING)); [lia|apply score_nonneg].
Qed.
End Engine.

Section Ledger.
Context `{Scoring}.

(** A command keeps the quiz snapshot, and either keeps the ledger or
    appends one submission, by a player who had none, to the entry of an
    existing question. *)
Lemma step_cases (s : Session) (c : command) :
  pg_questions (s_game (fst (step s c))) = pg_questions (s_game s) /\
  (s_ledger (fst (step s c)) = s_ledger s \/
   exists (player : string) (i : Z) (q : QuizQuestion) (a : AnswerData),
     0 <= i /\
     pg_questions (s_game s) !! Z.to_nat i = Some q /\
     recorded s player i = None /\
     ad_username a = player /\
     0 <= ad_score a /\
     s_ledger (fst (step s c)) = alter (fun l => l ++ [a]) (Z.to_nat i) (s_ledger s)).
Proof.
  destruct c as [|rid now| |player i payload t|username sid captcha|username sid|sid];
    cbn [step].
  - unfold start. destruct (state_of s); cbn; auto.
  - unfold advance_question. destruct (state_of s); cbn; auto.
    destruct (_ =? _); cbn; auto.
  - unfold hide_question. cbn. auto.
  - destruct (submit_answer_cases s player i payload t)
      as [(why & ->) | (q & a & Hi & Hq & Hrec & Hname & Hscore & ->)].
    + cbn. auto.
    + cbn. split; [reflexivity|]. right. exists player, i, q, a. repeat split; assumption.
  - unfold join. destruct (_ && _); cbn; auto.
    destruct (find_player s username) as [p|].
    + destruct (gp_sid p); cbn; auto. destruct (s_finished s); cbn; auto.
    + destruct (state_of s); cbn; auto.
  - unfold reconnect. destruct (find_player s username) as [p|]; cbn; auto.
    destruct (gp_sid p); cbn; auto.
  - unfold disconnect. cbn. auto.
Qed.

Lemma submissions_lookup (s : Session) (i : Z) (l : list AnswerData) :
  0 <= i -> s_ledger s !! Z.to_nat i = Some l -> submissions s i = l.
Proof.
  intros Hi Hl. unfold submissions.
  destruct (i <? 0) eqn:Hneg; [apply Z.ltb_lt in Hneg; lia|].
  rewrite Hl. reflexivity.
Qed.

Lemma step_ledger_ok (s : Session) (c : command) :
  ledger_ok s -> ledger_ok (fst (step s c)).
Proof.
  intros (Hlen & Hnd & Hpos).
  destruct (step_cases s c) as
    [Hq [Hsame | (player & i & q & a & Hi & Hqi & Hrec & Hname & Hscore & Halter)]];
    unfold ledger_ok; rewrite Hq.
  - rewrite Hsame. auto.
  - rewrite Halter, length_alter. split; [exact Hlen|].
    assert (Hlt : (Z.to_nat i < length (s_ledger s))%nat).
    { rewrite Hlen. eapply lookup_lt_Some. exact Hqi. }
    destruct (lookup_lt_is_Some_2 _ _ Hlt) as [l Hl].
    pose proof (submissions_lookup s i l Hi Hl) as Hsub.
    unfold recorded in Hrec. rewrite Hsub in Hrec.
    split; apply Forall_lookup; intros j l' Hj;
      rewrite list_lookup_alter in Hj; destruct (decide (Z.to_nat i = j)) as [<-|Hne].
    + rewrite Hl in Hj. cbn in Hj. injection Hj as <-.
      rewrite List.map_app. cbn.
      apply NoDup_app. split; [|split].
      * eapply Forall_lookup_1 in Hnd; [exact Hnd | exact Hl].
      * intros x Hx Hx'. apply list_elem_of_In in Hx.
        apply list_elem_of_singleton in Hx'. subst x.
        apply (find_None_not_in _ _ Hrec). rewrite <- Hname. exact Hx.
      * apply NoDup_singleton.
    + eapply Forall_lookup_1 in Hnd; [exact Hnd | exact Hj].
    + rewrite Hl in Hj. cbn in Hj. injection Hj as <-.
      apply Forall_app. split.
      * eapply Forall_lookup_1 in Hpos; [exact Hpos | exact Hl].
      * repeat constructor. exact Hscore.
    + eapply Forall_lookup_1 in Hpos; [exact Hpos | exact Hj].
Qed.

Lemma step_keeps_recorded (s : Session) (c : command) (player : string) (i : Z)
    (a : AnswerData) :
  recorded s player i = Some a ->
  recorded (fst (step s c)) player i = Some a.
Proof.
  intros Hrec.
  destruct (step_cases s c) as
    [_ [Hsame | (player' & i' & q & a' & Hi & _ & _ & _ & _ & Halter)]];
    unfold recorded, submissions in *.
  - rewrite Hsame. exact Hrec.
  - rewrite Halter. destruct (i <? 0); [exact Hrec|].
    rewrite list_lookup_alter. destruct (decide (Z.to_nat i' = Z.to_nat i)) as [->|Hne].
    + destruct (s_ledger s !! Z.to_nat i) as [l|]; cbn in *; [|discriminate Hrec].
      apply find_app_Some. exact Hrec.
    + exact Hrec.
Qed.

Lemma run_app (s : Session) (cs cs' : list command) :
  run s (cs ++ cs') = run (run s cs) cs'.
Proof. unfold run. apply fold_left_app. Qed.

Lemma run_ledger_ok (cs : list command) (s : Session) :
  ledger_ok s -> ledger_ok (run s cs).
Proof.
  revert s. induction cs as [|c cs IH]; intros s Hok; [exact Hok|].
  cbn. apply IH, step_ledger_ok, Hok.
Qed.

Lemma run_keeps_recorded (cs : list command) (s : Session) (player : string)
    (i : Z) (a : AnswerData) :
  recorded s player i = Some a ->
  recorded (run s cs) player i = Some a.
Proof.
  revert s. induction cs as [|c cs IH]; intros s Hrec; [exact Hrec|].
  cbn. apply IH, step_keeps_recorded, Hrec.
Qed.

(** The entries of a well-formed ledger hold no duplicates. *)
Lemma submissions_NoDup (s : Session) (i : Z) :
  ledger_ok s -> NoDup (List.map ad_username (submissions s i)).
Proof.
  intros (_ & Hnd & _). unfold submissions.
  destruct (i <? 0); [constructor|].
  destruct (s_ledger s !! Z.to_nat i) as [l|] eqn:Hl; cbn; [|constructor].
  eapply Forall_lookup_1 in Hnd; [exact Hnd | exact Hl].
Qed.

Lemma count_recorded_find (s : Session) (player : string) (i : Z) :
  ledger_ok s ->
  count_recorded s player i
  = match recorded s player i with Some _ => 1%nat | None => 0%nat end.
Proof.
  intros Hok. unfold count_recorded, recorded.
  rewrite (filter_is_find player _ (submissions_NoDup s i Hok)).
  destruct (List.find (by_player player) (submissions s i)); reflexivity.
Qed.

Lemma submit_recorded_rejected (s : Session) (player : string) (i : Z)
    (a : AnswerData) (payload : string) (t : float) :
  recorded s player i = Some a ->
  exists why, step s (SubmitAnswer player i payload t) = (s, AnswerRejected why).
Proof.
  intros Hrec. cbn [step].
  destruct (submit_answer_cases s player i payload t)
    as [Hrej | (q & a' & _ & _ & Hnone & _)]; [exact Hrej|].
  rewrite Hrec in Hnone. discriminate Hnone.
Qed.
End Ledger.

(** In the [GameSession] built from a well-formed ledger, no [GameAnswer1]
    holds two answers of one player. *)
Lemma as_GameSession_unique (admin game_id : string) (s : Session) :
  ledger_ok s ->
  forall (i : nat) (g : GameAnswer1),
    gs_answers (as_GameSession admin game_id s) !! i = Some (Some g) ->
    ga1_id g = Z.of_nat i /\ NoDup (List.map ga2_username (ga1_answers g)).
Proof.
  intros (_ & Hnd & _) i g Hg. cbn in Hg.
  rewrite list_lookup_imap in Hg.
  destruct (s_ledger s !! i) as [l|] eqn:Hl; cbn in Hg; [|discriminate Hg].
  injection Hg as <-. cbn. split; [reflexivity|].
  rewrite List.map_map. cbn.
  eapply Forall_lookup_1 in Hnd; [exact Hnd | exact Hl].
Qed.

Lemma create_in_lobby (quiz : Quiz) (host_id : UUID) (captcha_enabled : bool)
    (game_id : UUID) (game_pin : string) :
  state_of (create quiz host_id captcha_enabled game_id game_pin) = LOBBY.
Proof. reflexivity. Qed.

(** C2. In every session, the ledger records at most one submission per
    player and question index.  Once a submission is recorded for a player
    and a question index, whatever commands follow, it remains the one
    recorded (it is not overwritten), it remains the only one (it is not
    duplicated), and a further submission by that player for that question
    index is rejected and leaves the session unchanged; the reason is
    [duplicate] when the submission would have been accepted otherwise. *)
Theorem at_most_one_submission `{Scoring} (quiz : Quiz) (host_id : UUID)
    (captcha_enabled : bool) (game_id : UUID) (game_pin : string)
    (before after : list command) (player : string) (i : Z) :
  (count_recorded (run (create quiz host_id captcha_enabled game_id game_pin) before)
     player i <= 1)%nat /\
  (forall a : AnswerData,
      recorded (run (create quiz host_id captcha_enabled game_id game_pin) before)
        player i = Some a ->
      let s := run (run (create quiz host_id captcha_enabled game_id game_pin) before)
                 after in
      recorded s player i = Some a /\
      count_recorded s player i = 1%nat /\
      (forall (payload : string) (t : float),
          exists why, step s (SubmitAnswer player i payload t) = (s, AnswerRejected why)) /\
      (forall (payload : string) (t : float),
          is_player s player = true ->
          i = pg_current_question (s_game s) ->
          in_progress s && pg_question_show (s_game s) = true ->
          step s (SubmitAnswer player i payload t) = (s, AnswerRejected duplicate))).
Proof.
  pose proof (create_ledger_ok quiz host_id captcha_enabled game_id game_pin) as Hok0.
  pose proof (run_ledger_ok before _ Hok0) as Hok1.
  split.
  - rewrite (count_recorded_find _ player i Hok1).
    destruct (recorded _ player i); lia.
  - intros a Hrec s.
    pose proof (run_ledger_ok after _ Hok1) as Hok2.
    pose proof (run_keeps_recorded after _ player i a Hrec) as Hrec2.
    fold s in Hok2, Hrec2.
    split; [exact Hrec2|]. split; [|split].
    + rewrite (count_recorded_find s player i Hok2), Hrec2. reflexivity.
    + intros payload t. exact (submit_recorded_rejected s player i a payload t Hrec2).
    + intros payload t Hplayer Hcur Hshow. cbn [step]. unfold submit_answer.
      rewrite Hplayer, <- Hcur, Z.eqb_refl, Hshow, Hrec2. reflexivity.
Qed.

Lemma at_most_one_submission_witness :
  recorded
    (run (H := example_scoring)
       (run (H := example_scoring) example_session example_history)
       [SubmitAnswer "alice" 0 "London" (float_of_Z 9000); HideQuestion])
    "alice" 0
  = Some {| ad_username := "alice"; ad_answer := "Paris"; ad_right := true;
            ad_time_taken := float_of_Z 1500; ad_score := 800 |}.
Proof.
  exact (proj1 (proj2 (at_most_one_submission (H := example_scoring)
                         example_quiz 1 false 42 "123456" example_history
                         [SubmitAnswer "alice" 0 "London" (float_of_Z 9000); HideQuestion]
                         "alice" 0)
                  {| ad_username := "alice"; ad_answer := "Paris"; ad_right := true;
                     ad_time_taken := float_of_Z 1500; ad_score := 800 |}
                  eq_refl)).
Defined.

(** ** The bounds of a recorded submission *)



Section Bounds.
Context `{Scoring}.




End Bounds.



(** ** The totals computed by the finalizer *)

Lemma sum_scores_app (l l' : list AnswerData) :
  sum_scores (l ++ l') = sum_scores l + sum_scores l'.
Proof.
  unfold sum_scores. induction l as [|x l IH]; cbn; [reflexivity|].
  rewrite IH. lia.
Qed.

Lemma sum_scores_nonneg (l : list AnswerData) :
  Forall (fun a => 0 <= ad_score a) l -> 0 <= sum_scores l.
Proof.
  unfold sum_scores. induction 1 as [|x l Hx _ IH]; cbn; lia.
Qed.

(** The score a player has in one entry of the ledger. *)
Lemma entry_total (player : string) (l : list AnswerData) :
  NoDup (List.map ad_username l) ->
  sum_scores (List.filter (by_player player) l)
  = match List.find (by_player player) l with
    | Some a => ad_score a
    | None => 0
    end.
Proof.
  intros Hnd. rewrite (filter_is_find player l Hnd).
  destruct (List.find (by_player player) l); cbn; lia.
Qed.

Lemma ledger_total (player : string) (ledger : list (list AnswerData)) :
  Forall (fun l => NoDup (List.map ad_username l)) ledger ->
  sum_scores (List.filter (by_player player) (concat ledger))
  = foldr (fun l acc =>
             match List.find (by_player player) l with
             | Some a => ad_score a
             | None => 0
             end + acc) 0 ledger.
Proof.
  induction 1 as [|l ledger Hl _ IH]; cbn; [reflexivity|].
  rewrite List.filter_app, sum_scores_app, IH, (entry_total player l Hl).
  reflexivity.
Qed.

(** Summing over the indices of a list is summing over its elements. *)
Lemma sum_by_index {A} (g : list A -> Z) (pre ledger : list (list A)) :
  foldr (fun i acc => g (default [] ((pre ++ ledger) !! i)) + acc) 0
    (seq (length pre) (length ledger))
  = foldr (fun l acc => g l + acc) 0 ledger.
Proof.
  revert pre. induction ledger as [|l ledger IH]; intros pre; cbn; [reflexivity|].
  rewrite list_lookup_middle by reflexivity. cbn. f_equal.
  specialize (IH (pre ++ [l])).
  rewrite <- app_assoc, length_app in IH. cbn in IH.
  rewrite Nat.add_1_r in IH. exact IH.
Qed.

Lemma sum_ext (f g : nat -> Z) (l : list nat) :
  (forall i, f i = g i) ->
  foldr (fun i acc => f i + acc) 0 l = foldr (fun i acc => g i + acc) 0 l.
Proof. intros Hfg. induction l as [|i l IH]; cbn; [reflexivity|]. rewrite IH, Hfg. reflexivity. Qed.

(** On a well-formed ledger, the total computed over the whole ledger is the
    sum of the scores recorded per question. *)
Lemma player_total_is_recorded_total (s : Session) (player : string) :
  ledger_ok s -> player_total s player = recorded_total s player.
Proof.
  intros (Hlen & Hnd & _). unfold player_total, recorded_total, all_answers.
  rewrite (ledger_total player _ Hnd), <- Hlen.
  rewrite <- (sum_by_index
                (fun l => match List.find (by_player player) l with
                          | Some a => ad_score a
                          | None => 0
                          end) [] (s_ledger s)).
  cbn [length app]. apply sum_ext. intros i.
  unfold score_at, recorded, submissions.
  destruct (Z.of_nat i <? 0) eqn:Hneg; [apply Z.ltb_lt in Hneg; lia|].
  rewrite Nat2Z.id. reflexivity.
Qed.

Lemma player_total_nonneg (s : Session) (player : string) :
  ledger_ok s -> 0 <= player_total s player.
Proof.
  intros (_ & _ & Hpos). unfold player_total, all_answers.
  apply sum_scores_nonneg.
  apply List.Forall_forall. intros a Ha.
  apply List.filter_In in Ha as [Ha _].
  apply List.in_concat in Ha as (l & Hl & Ha).
  apply list_elem_of_In in Hl.
  eapply Forall_forall in Hpos; [|exact Hl].
  eapply List.Forall_forall in Hpos; [exact Hpos | exact Ha].
Qed.

Lemma recorded_total_none (s : Session) (player : string) :
  (forall i, recorded s player i = None) -> recorded_total s player = 0.
Proof.
  intros Hnone. unfold recorded_total.
  induction (seq 0 (length (pg_questions (s_game s)))) as [|i l IH]; cbn; [reflexivity|].
  unfold score_at at 1. rewrite Hnone, IH. reflexivity.
Qed.

(** Every player of the roster has an entry in the score mapping. *)
Lemma player_scores_lookup (s : Session) (p : GamePlayer) :
  In p (s_roster s) ->
  player_scores_of s !! gp_username p
  = Some (pretty (player_total s (gp_username p))).
Proof.
  unfold player_scores_of. generalize (player_total s) as total. intros total.
  induction (s_roster s) as [|x roster IH]; cbn; [intros []|].
  intros [-> | Hin].
  - apply lookup_insert_eq.
  - destruct (decide (gp_username x = gp_username p)) as [Heq|Hne].
    + rewrite Heq. apply lookup_insert_eq.
    + rewrite lookup_insert_ne by exact Hne. apply IH, Hin.
Qed.

(** The finalizer's row is the one the constructor of [GameResults] accepts
    for its arguments. *)
Lemma finalize_is_GameResults_new (m : ModelDefaults) (w : World)
    (result_id : UUID) (now : datetime) (s : Session) :
  GameResults_new m (finalize_args result_id now s) w
  = (inr (finalize result_id now s), w).
Proof. reflexivity. Qed.

(** The only response that carries a results row is the one of the advance
    that finishes the game, and the row is the finalizer's. *)
Lemma finished_response `{Scoring} (s s' : Session) (c : command) (r : GameResults) :
  step s c = (s', GameFinished r) ->
  exists (result_id : UUID) (now : datetime),
    c = AdvanceQuestion result_id now /\ r = finalize result_id now s' /\
    s_finished s' = true.
Proof.
  destruct c as [|rid now| |player i payload t|username sid captcha|username sid|sid];
    cbn [step].
  - unfold start. destruct (state_of s); discriminate.
  - unfold advance_question. destruct (state_of s); try discriminate.
    destruct (_ =? _); [|discriminate].
    intros Heq. injection Heq as <- <-. exists rid, now. auto.
  - unfold hide_question. discriminate.
  - destruct (submit_answer_cases s player i payload t)
      as [(why & ->) | (q & a & _ & _ & _ & _ & _ & ->)]; discriminate.
  - unfold join. destruct (_ && _); [discriminate|].
    destruct (find_player s username) as [p|].
    + destruct (gp_sid p); [discriminate|]. destruct (s_finished s); discriminate.
    + destruct (state_of s); discriminate.
  - unfold reconnect. destruct (find_player s username) as [p|]; [|discriminate].
    destruct (gp_sid p); discriminate.
  - unfold disconnect. discriminate.
Qed.

(** C4. In every results row produced when a game finishes, the score
    mapping has an entry for every player of the roster; the entry is the
    decimal string of a non-negative integer, the sum of the scores recorded
    for that player over the questions of the quiz; a player without any
    submission has the entry 0 and is not absent. *)
Theorem finalized_scores_are_recorded_totals `{Scoring} (quiz : Quiz) (host_id : UUID)
    (captcha_enabled : bool) (game_id : UUID) (game_pin : string)
    (history : list command) (last : command) (s' : Session) (r : GameResults) :
  step (run (create quiz host_id captcha_enabled game_id game_pin) history) last
  = (s', GameFinished r) ->
  exists scores : gmap string string,
    gr_player_scores r = Some scores /\
    forall p : GamePlayer,
      In p (s_roster s') ->
      0 <= recorded_total s' (gp_username p) /\
      scores !! gp_username p = Some (pretty (recorded_total s' (gp_username p))) /\
      ((forall i : Z, recorded s' (gp_username p) i = None) ->
       scores !! gp_username p = Some "0").
Proof.
  intros Hstep.
  assert (Hok : ledger_ok s').
  { replace s' with
      (fst (step (run (create quiz host_id captcha_enabled game_id game_pin) history) last))
      by (rewrite Hstep; reflexivity).
    apply step_ledger_ok, run_ledger_ok, create_ledger_ok. }
  destruct (finished_response _ _ _ _ Hstep) as (rid & now & _ & -> & _).
  exists (player_scores_of s'). split; [reflexivity|].
  intros p Hp.
  rewrite (player_scores_lookup s' p Hp).
  rewrite <- (player_total_is_recorded_total s' (gp_username p) Hok).
  split; [apply player_total_nonneg, Hok|]. split; [reflexivity|].
  intros Hnone.
  rewrite (player_total_is_recorded_total s' (gp_username p) Hok).
  rewrite (recorded_total_none s' (gp_username p) Hnone). reflexivity.
Qed.

Lemma finalized_scores_are_recorded_totals_witness :
  exists scores : gmap string string,
    gr_player_scores
      (finalize 100 3000
         (run (H := example_scoring) example_session
            (example_last_round ++ [AdvanceQuestion 100 3000])))
    = Some scores /\
    forall p : GamePlayer,
      In p (s_roster (run (H := example_scoring) example_session
                        (example_last_round ++ [AdvanceQuestion 100 3000]))) ->
      0 <= recorded_total
             (run (H := example_scoring) example_session
                (example_last_round ++ [AdvanceQuestion 100 3000]))
             (gp_username p) /\
      scores !! gp_username p
      = Some (pretty (recorded_total
                        (run (H := example_scoring) example_session
                           (example_last_round ++ [AdvanceQuestion 100 3000]))
                        (gp_username p))) /\
      ((forall i : Z,
           recorded (run (H := example_scoring) example_session
                       (example_last_round ++ [AdvanceQuestion 100 3000]))
             (gp_username p) i = None) ->
       scores !! gp_username p = Some "0").
Proof.
  apply (finalized_scores_are_recorded_totals (H := example_scoring)
           example_quiz 1 false 42 "123456" example_last_round
           (AdvanceQuestion 100 3000)).
  vm_compute. reflexivity.
Defined.

(** ** What the constructor of [QuizQuestion] accepts, and how it fails *)

(** The outcome of the validator for a tagged question, by tag and payload. *)
Lemma validator_table (values : gmap string field_value)
    (t : QuizQuestionType) (v : answers_t) :
  values !! "type" = Some (FType (Some t)) ->
  returned (answers_not_none_if_abcd_type v values)
  = shape_matches t v && nonempty_payload v /\
  (answers_not_none_if_abcd_type v values = Raise IndexError <->
   t ≠ RANGE /\ nonempty_payload v = false) /\
  (forall key, answers_not_none_if_abcd_type v values ≠ Raise (KeyError key)).
Proof.
  intros Hty.
  destruct t; destruct v as [[|x l]|r|[|x l]|[|x l]|[|c s]];
    run_validator Hty;
    (split; [reflexivity|]; split; [|intros key Hk; discriminate Hk]);
    (split; [intros Hr; first [discriminate Hr | split; [discriminate | reflexivity]]
            | intros [Hne Hempty]; first [discriminate Hempty | congruence | reflexivity]]).
Qed.

Lemma init_of_validator (a : QuizQuestion_args) (t : option QuizQuestionType) :
  validate_type (arg_type a) = Some t ->
  QuizQuestion_init a
  = match answers_not_none_if_abcd_type (arg_answers a) (values_before_answers a) with
    | Return v =>
        inr {| qq_question := arg_question a; qq_time := arg_time a; qq_type := t;
               qq_answers := v; qq_image := arg_image a |}
    | Raise (ValueError _) | Raise TypeError => inl (ValidationError ["answers"])
    | Raise e => inl (Uncaught e)
    end.
Proof.
  intros Hv. unfold QuizQuestion_init. rewrite Hv.
  destruct (answers_not_none_if_abcd_type _ _) as [v|[]]; reflexivity.
Qed.

(** X1. A question with a tag is accepted exactly when its payload has the
    shape of the tag and is not empty; nothing else in the payload is looked
    at, and the question built holds the arguments unchanged. *)
Theorem question_accepted_iff (a : QuizQuestion_args) (t : QuizQuestionType) :
  validate_type (arg_type a) = Some (Some t) ->
  (accepts a = true <->
   shape_matches t (arg_answers a) = true /\ nonempty_payload (arg_answers a) = true) /\
  (forall q : QuizQuestion,
      QuizQuestion_init a = inr q ->
      q = {| qq_question := arg_question a; qq_time := arg_time a; qq_type := Some t;
             qq_answers := arg_answers a; qq_image := arg_image a |}).
Proof.
  intros Hv.
  pose proof (values_type_valid a _ Hv) as Hty.
  destruct (validator_table _ t (arg_answers a) Hty) as (Hret & _ & _).
  split.
  - unfold accepts. rewrite (init_of_validator a _ Hv).
    rewrite <- andb_true_iff, <- Hret.
    destruct (answers_not_none_if_abcd_type _ _) as [v|[]]; cbn; intuition congruence.
  - intros q Hq.
    destruct (init_accepted a q Hq) as (t' & Hv' & Hty' & Hans & _).
    rewrite Hv in Hv'. injection Hv' as <-.
    rewrite (init_of_validator a _ Hv) in Hq.
    destruct (answers_not_none_if_abcd_type _ _) as [v|[]]; try discriminate Hq.
    injection Hq as <-. cbn in Hans. subst v. reflexivity.
Qed.

Lemma question_accepted_iff_witness :
  accepts {| arg_question := "Between"; arg_time := "15"; arg_type := TypeGiven "RANGE";
             arg_answers := AnsRange {| range_min := 10; range_max := 0;
                                        range_min_correct := 7; range_max_correct := 3 |};
             arg_image := None |} = true.
Proof.
  apply (proj1 (question_accepted_iff
                  {| arg_question := "Between"; arg_time := "15";
                     arg_type := TypeGiven "RANGE";
                     arg_answers := AnsRange {| range_min := 10; range_max := 0;
                                                range_min_correct := 7;
                                                range_max_correct := 3 |};
                     arg_image := None |} RANGE eq_refl)).
  split; reflexivity.
Defined.

(** X2. The seven type strings and the seven tags correspond one to one: the
    lookup of a tag's value gives the tag back, and a string that the lookup
    accepts is the value of the tag found. *)
Theorem type_value_round_trip (t : QuizQuestionType) (s : string) :
  QuizQuestionType_of_value (QuizQuestionType_value t) = Some t /\
  (QuizQuestionType_of_value s = Some t <-> s = QuizQuestionType_value t).
Proof.
  assert (Hrt : forall t', QuizQuestionType_of_value (QuizQuestionType_value t') = Some t')
    by (intros []; reflexivity).
  split; [apply Hrt|]. split.
  - intros Hs. symmetry. apply (of_value_sound s t Hs).
  - intros ->. apply Hrt.
Qed.

(** X3. The constructor of [QuizQuestion] lets an exception escape in two
    cases only: a type string that is not the value of a tag gives
    KeyError("type"), whatever the answers; and an empty list or empty string
    as answers of a question tagged otherwise than RANGE gives IndexError.
    A RANGE question never does. *)
Theorem question_uncaught_iff (a : QuizQuestion_args) (e : exn) :
  QuizQuestion_init a = inl (Uncaught e) <->
  (validate_type (arg_type a) = None /\ e = KeyError "type") \/
  (exists t : QuizQuestionType,
      validate_type (arg_type a) = Some (Some t) /\ t ≠ RANGE /\
      nonempty_payload (arg_answers a) = false /\ e = IndexError).
Proof.
  destruct (validate_type (arg_type a)) as [[t|]|] eqn:Hv.
  - pose proof (values_type_valid a _ Hv) as Hty.
    destruct (validator_table _ t (arg_answers a) Hty) as (_ & Hidx & Hkey).
    rewrite (init_of_validator a _ Hv).
    destruct (answers_not_none_if_abcd_type _ _) as [v|[msg| | |key]] eqn:Hval.
    + split; [discriminate|].
      intros [[Hn _] | (t' & Ht' & Hne & Hempty & _)]; [discriminate Hn|].
      injection Ht' as <-. discriminate (proj2 Hidx (conj Hne Hempty)).
    + split; [discriminate|].
      intros [[Hn _] | (t' & Ht' & Hne & Hempty & _)]; [discriminate Hn|].
      injection Ht' as <-. discriminate (proj2 Hidx (conj Hne Hempty)).
    + split; [discriminate|].
      intros [[Hn _] | (t' & Ht' & Hne & Hempty & _)]; [discriminate Hn|].
      injection Ht' as <-. discriminate (proj2 Hidx (conj Hne Hempty)).
    + destruct (proj1 Hidx eq_refl) as [Hne Hempty]. split.
      * intros He. injection He as <-. right. exists t. auto.
      * intros [[Hn _] | (t' & _ & _ & _ & ->)]; [discriminate Hn | reflexivity].
    + destruct (Hkey key eq_refl).
  - rewrite (init_of_validator a _ Hv).
    rewrite (validator_untagged _ _ (values_type_valid a None Hv)).
    split; [discriminate|].
    intros [[Hn _] | (t' & Ht' & _)]; discriminate.
  - unfold QuizQuestion_init.
    rewrite (validator_no_type _ _ (values_type_invalid a Hv)).
    split.
    + intros He. injection He as <-. left. auto.
    + intros [[_ ->] | (t' & Ht' & _)]; [reflexivity | discriminate Ht'].
Qed.

(** ** QuizInput and the background image *)

Lemma must_come_from_local_cdn_returns (local : string -> bool) (v v' : option string) :
  must_come_from_local_cdn local v = Return v' <->
  v' = v /\ (forall url, v = Some url -> local url = true).
Proof.
  unfold must_come_from_local_cdn. destruct v as [url|].
  - destruct (local url) eqn:Hl; split.
    + intros Hr. injection Hr as <-. split; [reflexivity|].
      intros url' Hu. injection Hu as <-. exact Hl.
    + intros [-> _]. reflexivity.
    + discriminate.
    + intros [_ Hu]. rewrite (Hu url eq_refl) in Hl. discriminate Hl.
  - split.
    + intros Hr. injection Hr as <-. split; [reflexivity | discriminate].
    + intros [-> _]. reflexivity.
Qed.

Lemma validate_questions_accepted (l : list QuizQuestion_args) (qs : list QuizQuestion) :
  validate_questions l = inr qs <->
  Forall2 (fun a q => QuizQuestion_init a = inr q) l qs.
Proof.
  revert qs. induction l as [|a l IH]; intros qs; cbn.
  - split.
    + intros Hq. injection Hq as <-. constructor.
    + intros Hf. inversion Hf. reflexivity.
  - destruct (QuizQuestion_init a) as [[fields|e]|q] eqn:Ha.
    + split.
      * destruct (validate_questions l) as [[]|]; discriminate.
      * intros Hf. inversion Hf; subst. congruence.
    + split; [discriminate|]. intros Hf. inversion Hf; subst. congruence.
    + destruct (validate_questions l) as [err|qs'] eqn:Hl.
      * split; [discriminate|]. intros Hf. inversion Hf as [|? q' ? qs'' Hq' Hrest]; subst.
        apply IH in Hrest. discriminate Hrest.
      * split.
        -- intros Hq. injection Hq as <-. constructor; [exact Ha|].
           apply IH. reflexivity.
        -- intros Hf. inversion Hf as [|? q' ? qs'' Hq' Hrest]; subst.
           rewrite Ha in Hq'. injection Hq' as <-. apply IH in Hrest.
           injection Hrest as <-. reflexivity.
Qed.

Lemma validate_questions_uncaught (l : list QuizQuestion_args) :
  (exists e, validate_questions l = inl (Uncaught e)) <->
  Exists (fun a => exists e, QuizQuestion_init a = inl (Uncaught e)) l.
Proof.
  induction l as [|a l IH]; cbn.
  - split; [intros [e He]; discriminate He | intros Hex; inversion Hex].
  - destruct (QuizQuestion_init a) as [[fields|e]|q] eqn:Ha.
    + split.
      * intros [e He]. apply Exists_cons_tl, IH.
        destruct (validate_questions l) as [[|e']|]; try discriminate He. eauto.
      * intros Hex. apply Exists_cons in Hex as [[e He] | Hex]; [congruence|].
        apply IH in Hex as [e He]. rewrite He. eauto.
    + split; [|eauto]. intros _. apply Exists_cons_hd. eauto.
    + split.
      * intros [e He]. apply Exists_cons_tl, IH.
        destruct (validate_questions l) as [[|e']|]; try discriminate He. eauto.
      * intros Hex. apply Exists_cons in Hex as [[e He] | Hex]; [congruence|].
        apply IH in Hex as [e He]. rewrite He. eauto.
Qed.

(** X4. A [QuizInput] is accepted exactly when every question is accepted by
    the constructor of [QuizQuestion] and the background image is absent or
    matches the server's URL pattern.  The input built holds the questions so
    built, in order, each with a payload of the shape of its tag, and the
    background image unchanged; [public] is false unless given. *)
Theorem quiz_input_accepted_iff (local : string -> bool) (a : QuizInput_args) :
  ((exists qi, QuizInput_init local a = inr qi) <->
   Forall (fun arg => accepts arg = true) (qia_questions a) /\
   (forall url, qia_background_image a = Some url -> local url = true)) /\
  (forall qi : QuizInput,
      QuizInput_init local a = inr qi ->
      Forall2 (fun arg q => QuizQuestion_init arg = inr q)
        (qia_questions a) (qi_questions qi) /\
      Forall (fun q => forall t, qq_type q = Some t ->
                shape_matches t (qq_answers q) = true) (qi_questions qi) /\
      qi_background_image qi = qia_background_image a /\
      qi_public qi = default false (qia_public a)).
Proof.
  assert (Hacc : forall qi, QuizInput_init local a = inr qi ->
            validate_questions (qia_questions a) = inr (qi_questions qi) /\
            must_come_from_local_cdn local (qia_background_image a)
            = Return (qi_background_image qi) /\
            qi_public qi = default false (qia_public a)).
  { unfold QuizInput_init. intros qi Hqi.
    destruct (validate_questions (qia_questions a)) as [[|]|qs]; try discriminate Hqi.
    destruct (must_come_from_local_cdn local (qia_background_image a)) as [img|];
      [|discriminate Hqi].
    injection Hqi as <-. auto. }
  split.
  - split.
    + intros [qi Hqi]. destruct (Hacc qi Hqi) as (Hq & Himg & _).
      apply validate_questions_accepted in Hq.
      apply must_come_from_local_cdn_returns in Himg as [_ Himg].
      split; [|exact Himg].
      apply Forall_forall. intros arg Harg.
      apply list_elem_of_lookup in Harg as [i Hi].
      destruct (Forall2_lookup_l _ _ _ _ _ Hq Hi) as (q & _ & Hinit).
      unfold accepts. rewrite Hinit. reflexivity.
    + intros [Hall Himg].
      assert (Hqs : exists qs, validate_questions (qia_questions a) = inr qs).
      { clear Hacc. induction (qia_questions a) as [|arg l IH]; [eexists; reflexivity|].
        apply Forall_cons in Hall as [Harg Hall]. destruct (IH Hall) as [qs Hqs].
        unfold accepts in Harg. cbn.
        destruct (QuizQuestion_init arg) as [|q]; [discriminate Harg|].
        rewrite Hqs. eauto. }
      destruct Hqs as [qs Hqs]. unfold QuizInput_init. rewrite Hqs.
      rewrite (proj2 (must_come_from_local_cdn_returns local _ _) (conj eq_refl Himg)).
      eauto.
  - intros qi Hqi. destruct (Hacc qi Hqi) as (Hq & Himg & Hpub).
    apply validate_questions_accepted in Hq.
    apply must_come_from_local_cdn_returns in Himg as [Himg _].
    split; [exact Hq|]. split; [|auto].
    apply Forall_forall. intros q Hq' t Ht.
    apply list_elem_of_lookup in Hq' as [i Hi].
    destruct (Forall2_lookup_r _ _ _ _ _ Hq Hi) as (arg & _ & Hinit).
    destruct (init_accepted arg q Hinit) as (t' & Hv & Hty & Hans & Hval).
    subst t'. rewrite Ht in Hv. rewrite Hans.
    destruct (validator_accepts_iff_shape _ t (arg_answers arg) (values_type_valid arg _ Hv))
      as (Hm & _); [rewrite Hval; reflexivity | exact Hm].
Qed.

(** X5. The constructor of [QuizInput] lets an exception escape exactly when
    the constructor of [QuizQuestion] does for one of its questions, whatever
    the other fields are: one question with an empty answers list is enough
    for the whole quiz to fail with an IndexError instead of a validation
    error. *)
Theorem quiz_input_uncaught_iff (local : string -> bool) (a : QuizInput_args) :
  (exists e, QuizInput_init local a = inl (Uncaught e)) <->
  Exists (fun arg => exists e, QuizQuestion_init arg = inl (Uncaught e)) (qia_questions a).
Proof.
  rewrite <- validate_questions_uncaught. unfold QuizInput_init.
  destruct (validate_questions (qia_questions a)) as [[fields|e0]|qs].
  - split; intros [e He]; discriminate He.
  - split; eauto.
  - destruct (must_come_from_local_cdn local (qia_background_image a)) as [img|err];
      split; intros [e He]; discriminate He.
Qed.

(** X6. A [Quiz] row that is built was given a title and questions, which it
    holds, and its background image is the one given, absent or matching the
    server's URL pattern.  No row is built from a background image that does
    not match the pattern, nor without a title or without questions. *)
Theorem quiz_row_has_local_image (local : string -> bool) (m : ModelDefaults)
    (a : Quiz_args) (w : World) :
  (forall q : Quiz,
      fst (Quiz_new local m a w) = inr q ->
      qa_title a = Some (quiz_title q) /\
      qa_questions a = Some (quiz_questions q) /\
      quiz_background_image q = qa_background_image a /\
      (forall url, quiz_background_image q = Some url -> local url = true)) /\
  (forall url, qa_background_image a = Some url -> local url = false ->
     exists err, fst (Quiz_new local m a w) = inl err) /\
  (qa_title a = None \/ qa_questions a = None ->
   exists err, fst (Quiz_new local m a w) = inl err).
Proof.
  unfold Quiz_new, mbind, IO_bind, mret, IO_ret.
  destruct (populate (Quiz_id m) (qa_id a) w) as [x w1].
  destruct (populate (Quiz_created_at m) (qa_created_at a) w1) as [y w2].
  destruct (populate (Quiz_updated_at m) (qa_updated_at a) w2) as [z w3].
  cbn [fst].
  destruct (must_come_from_local_cdn local (qa_background_image a)) as [img|e] eqn:Himg.
  - apply must_come_from_local_cdn_returns in Himg as [-> Himg].
    split; [|split].
    + intros q Hq.
      destruct (qa_title a) as [title|], (qa_questions a) as [questions|];
        try discriminate Hq.
      injection Hq as <-. cbn. auto.
    + intros url Hurl Hl. rewrite (Himg url Hurl) in Hl. discriminate Hl.
    + intros [Hn | Hn]; rewrite Hn; [|destruct (qa_title a)]; eauto.
  - split; [|split].
    + intros q Hq.
      destruct (qa_title a) as [title|], (qa_questions a) as [questions|];
        discriminate Hq.
    + intros url _ _.
      destruct (qa_title a) as [title|], (qa_questions a) as [questions|]; eauto.
    + intros _.
      destruct (qa_title a) as [title|], (qa_questions a) as [questions|]; eauto.
Qed.

Lemma quiz_input_accepted_iff_witness :
  exists qi, QuizInput_init (fun _ => false) example_input = inr qi.
Proof.
  apply (proj2 (proj1 (quiz_input_accepted_iff (fun _ => false) example_input))).
  split.
  - repeat constructor.
  - discriminate.
Defined.

(** ** The remaining column defaults *)

Lemma hex_length (bs : list Byte.byte) :
  String.length (hex bs) = (2 * length bs)%nat.
Proof. induction bs as [|b bs IH]; cbn; [reflexivity|]. rewrite IH. lia. Qed.

Lemma hex_digit_is_hex (n : N) : is_hex_digit (hex_digit n) = true.
Proof.
  destruct n as [|p]; [reflexivity|].
  do 5 (destruct p as [p|p|]; try reflexivity).
Qed.

Lemma hex_is_hex (bs : list Byte.byte) : all_chars is_hex_digit (hex bs) = true.
Proof.
  induction bs as [|b bs IH]; [reflexivity|].
  cbn [hex all_chars]. rewrite !hex_digit_is_hex, IH. reflexivity.
Qed.

(** X7. The default backup code meets the constraint of its column: it is a
    string of exactly 64 lowercase hexadecimal digits, whatever the entropy
    source returns, and it is the code of every user built without one. *)
Theorem default_backup_code_is_well_formed (w0 : World) :
  exists code : string,
    User_backup_code (fst (import_models w0)) = DefaultValue code /\
    String.length code = 64%nat /\
    all_chars is_hex_digit code = true /\
    forall (a : User_args) (w : World),
      ua_backup_code a = None ->
      user_backup_code (fst (User_new (fst (import_models w0)) a w)) = code.
Proof.
  rewrite import_models_defaults.
  eexists. split; [reflexivity|]. split; [|split].
  - rewrite hex_length, length_map, length_seq. reflexivity.
  - apply hex_is_hex.
  - intros a w Hnone.
    match goal with
    | |- context [User_new ?m a w] => destruct (User_new_fields m a w) as (_ & _ & ->)
    end.
    cbn [User_id User_created_at User_backup_code]. rewrite Hnone.
    destruct (ua_id a), (ua_created_at a); reflexivity.
Qed.

Lemma UserSession_new_fields (m : ModelDefaults) (a : UserSession_args) (w : World)
    (id created_at last_seen : Z) :
  UserSession_id m = DefaultValue id ->
  UserSession_created_at m = DefaultValue created_at ->
  UserSession_last_seen m = DefaultValue last_seen ->
  snd (UserSession_new m a w) = w /\
  us_id (fst (UserSession_new m a w)) = default id (usa_id a) /\
  us_created_at (fst (UserSession_new m a w)) = default created_at (usa_created_at a) /\
  us_last_seen (fst (UserSession_new m a w)) = default last_seen (usa_last_seen a).
Proof.
  intros Hid Hc Hl. unfold UserSession_new, mbind, IO_bind, mret, IO_ret.
  rewrite Hid, Hc, Hl.
  destruct (usa_id a), (usa_created_at a), (usa_last_seen a); cbn; auto.
Qed.

(** X8. The defaults of the session, instance and storage rows are computed
    once as well: a UserSession built without id, creation time or last-seen
    time, an InstanceData built without id and a StorageItem built without
    upload time receive the values drawn when the module was imported -- the
    upload time is the time of the import, not of the upload -- and building
    a row never draws an identifier or reads the clock. *)
Theorem rows_share_import_time_defaults (w0 : World) :
  (forall (a : UserSession_args) (w : World),
      snd (UserSession_new (fst (import_models w0)) a w) = w /\
      (usa_id a = None ->
       us_id (fst (UserSession_new (fst (import_models w0)) a w))
       = w_uuid4 w0 (S (w_uuid4_calls w0))) /\
      (usa_created_at a = None ->
       us_created_at (fst (UserSession_new (fst (import_models w0)) a w))
       = w_now w0 (S (w_now_calls w0))) /\
      (usa_last_seen a = None ->
       us_last_seen (fst (UserSession_new (fst (import_models w0)) a w))
       = w_now w0 (S (S (w_now_calls w0))))) /\
  (forall w : World,
      InstanceData_new (fst (import_models w0)) None w
      = ({| inst_instance_id := w_uuid4 w0 (S (S (S (w_uuid4_calls w0)))) |}, w)) /\
  (forall (Page : Type) (a : StorageItem_args Page) (w : World),
      snd (StorageItem_new (fst (import_models w0)) a w) = w /\
      (sia_uploaded_at Page a = None ->
       si_uploaded_at (fst (StorageItem_new (fst (import_models w0)) a w))
       = w_now w0 (S (S (S (S (S (S (w_now_calls w0))))))))).
Proof.
  rewrite import_models_defaults.
  split; [|split].
  - intros a w.
    match goal with
    | |- context [UserSession_new ?m a w] =>
        destruct (UserSession_new_fields m a w _ _ _ eq_refl eq_refl eq_refl)
          as (-> & -> & -> & ->)
    end.
    split; [reflexivity|].
    split; [|split]; intros ->; reflexivity.
  - intros w. reflexivity.
  - intros Page a w. unfold StorageItem_new, mbind, IO_bind, mret, IO_ret.
    cbn [StorageItem_uploaded_at].
    destruct (sia_uploaded_at Page a); cbn; split; try reflexivity; discriminate.
Qed.

(** ** Shares of a quiztivity *)

Lemma td_seconds_range (a b : datetime) :
  0 <= td_seconds (datetime_sub a b) < 86400.
Proof. cbn. apply Z.mod_pos_bound. lia. Qed.

Lemma minutes_of_seconds_range (seconds : Z) :
  0 <= seconds < 86400 -> 0 <= minutes_of_seconds seconds <= 1439.
Proof.
  intros Hs. unfold minutes_of_seconds. split.
  - apply Z.div_pos; lia.
  - assert (seconds / 60 < 1440); [|lia].
    apply Z.div_lt_upper_bound; lia.
Qed.

(** The floor quotient is what the binary64 computation gives at the
    multiples of 60 and just below them. *)
Lemma minutes_of_seconds_binary64 :
  forallb (fun s => bool_decide (int_of_float (truediv s 60) = Some (minutes_of_seconds s)))
    boundary_seconds = true.
Proof. vm_compute. reflexivity. Qed.

Lemma td_seconds_whole_days (a b k : Z) :
  td_seconds (datetime_sub (a + k * 86400000000) b) = td_seconds (datetime_sub a b).
Proof.
  cbn.
  replace (a + k * 86400000000 - b) with (a - b + (k * 86400) * 1000000) by lia.
  rewrite Z.div_add by lia.
  apply Z_mod_plus_full.
Qed.

Section Shares.
Context {Page : Type}.

Lemma share_conversion (data : QuizTivityShare Page) (w : World) :
  fst (PublicQuizTivityShare_from_db_model data w)
  = match qts_quiztivity data, qts_user data with
    | Some quiztivity, Some user =>
        inr {| pqs_id := qts_id data;
               pqs_name := qts_name data;
               pqs_expire_in :=
                 match qts_expire_at data with
                 | None => None
                 | Some expire_at =>
                     Some (minutes_of_seconds
                             (td_seconds (datetime_sub expire_at (w_now w (w_now_calls w)))))
                 end;
               pqs_quiztivity := {| only_id := qt_id quiztivity |};
               pqs_user := {| only_id := user_id user |} |}
    | _, _ => inl (AttributeError "id")
    end.
Proof.
  unfold PublicQuizTivityShare_from_db_model, mbind, IO_bind, mret, IO_ret.
  destruct (qts_expire_at data), (qts_quiztivity data), (qts_user data); reflexivity.
Qed.

(** X9. The remaining time that a public share reports is present exactly
    when the share has an expiry, and is then a number of minutes between 0
    and 1439, whatever the expiry and the clock: also for a share that
    expired long ago or expires in a year. *)
Theorem share_expire_in_range (data : QuizTivityShare Page) (w : World)
    (p : PublicQuizTivityShare) :
  fst (PublicQuizTivityShare_from_db_model data w) = inr p ->
  (pqs_expire_in p = None <-> qts_expire_at data = None) /\
  (forall n : Z, pqs_expire_in p = Some n -> 0 <= n <= 1439).
Proof.
  rewrite share_conversion.
  destruct (qts_quiztivity data), (qts_user data); try discriminate.
  intros Hp. injection Hp as <-. cbn [pqs_expire_in].
  destruct (qts_expire_at data) as [expire_at|].
  - split; [split; discriminate|].
    intros n Hn. injection Hn as <-.
    apply minutes_of_seconds_range, td_seconds_range.
  - split; [split; reflexivity | discriminate].
Qed.

(** X10. The remaining time ignores whole days: moving the expiry of a share
    by any number of days, forward or backward, does not change what the
    conversion returns.  A share that expired a minute ago reports 1439
    minutes, as one that expires in a day less a minute. *)
Theorem share_expire_in_ignores_days (data : QuizTivityShare Page) (w : World)
    (expire_at days : Z) :
  fst (PublicQuizTivityShare_from_db_model
         (with_expire_at data (Some (expire_at + days * 86400000000))) w)
  = fst (PublicQuizTivityShare_from_db_model (with_expire_at data (Some expire_at)) w).
Proof.
  rewrite !share_conversion.
  cbn [with_expire_at qts_id qts_name qts_expire_at qts_quiztivity qts_user].
  rewrite td_seconds_whole_days. reflexivity.
Qed.

(** X11. The conversion of a share returns a value exactly when both the
    quiztivity and the user of the share are loaded; otherwise reading [.id]
    of [None] raises AttributeError.  The clock is read once when the share
    has an expiry, before the relations are looked at, and not at all when
    it has none. *)
Theorem share_conversion_needs_relations (data : QuizTivityShare Page) (w : World) :
  ((exists p, fst (PublicQuizTivityShare_from_db_model data w) = inr p) <->
   is_Some (qts_quiztivity data) /\ is_Some (qts_user data)) /\
  (qts_quiztivity data = None \/ qts_user data = None ->
   fst (PublicQuizTivityShare_from_db_model data w) = inl (AttributeError "id")) /\
  w_now_calls (snd (PublicQuizTivityShare_from_db_model data w))
  = match qts_expire_at data with
    | Some _ => S (w_now_calls w)
    | None => w_now_calls w
    end.
Proof.
  rewrite share_conversion. split; [|split].
  - destruct (qts_quiztivity data), (qts_user data); split;
      try (intros [p Hp]; discriminate Hp);
      try (intros [[? H1] [? H2]]; discriminate);
      eauto.
  - destruct (qts_quiztivity data), (qts_user data); intros [H1|H1];
      try discriminate H1; reflexivity.
  - unfold PublicQuizTivityShare_from_db_model, mbind, IO_bind, mret, IO_ret.
    destruct (qts_expire_at data); reflexivity.
Qed.
End Shares.

Lemma share_expire_in_range_witness :
  (Some 1439 = None <-> qts_expire_at expired_share = None) /\
  (forall n : Z, Some 1439 = Some n -> 0 <= n <= 1439).
Proof.
  exact (share_expire_in_range expired_share example_world
           {| pqs_id := 5; pqs_name := Some "class 7b"; pqs_expire_in := Some 1439;
              pqs_quiztivity := {| only_id := 8 |};
              pqs_user := {| only_id := 1000 |} |} eq_refl).
Defined.

(** ** Public views of a storage item *)

Lemma hex_digit_inj (n n' : N) :
  (n < 16)%N -> (n' < 16)%N -> hex_digit n = hex_digit n' -> n = n'.
Proof.
  assert (Hnat : forall k k' : nat,
             (k < 16)%nat -> (k' < 16)%nat ->
             hex_digit (N.of_nat k) = hex_digit (N.of_nat k') -> k = k').
  { intros k k' Hk Hk'.
    do 16 (destruct k as [|k];
           [do 16 (destruct k' as [|k'];
                   [intros Heq; first [reflexivity | discriminate Heq]|]);
            exfalso; lia|]).
    exfalso; lia. }
  intros Hn Hn' Heq.
  rewrite <- (N2Nat.id n), <- (N2Nat.id n') in Heq |- *.
  f_equal. apply Hnat; [lia | lia | exact Heq].
Qed.

Lemma byte_of_digits (b b' : Byte.byte) :
  hex_digit (Byte.to_N b / 16) = hex_digit (Byte.to_N b' / 16) ->
  hex_digit (Byte.to_N b mod 16) = hex_digit (Byte.to_N b' mod 16) ->
  b = b'.
Proof.
  intros Hhi Hlo.
  pose proof (Byte.to_N_bounded b) as Hb. pose proof (Byte.to_N_bounded b') as Hb'.
  apply hex_digit_inj in Hhi; [|apply N.Div0.div_lt_upper_bound; lia ..].
  apply hex_digit_inj in Hlo; [|apply N.mod_lt; lia ..].
  assert (Heq : Byte.to_N b = Byte.to_N b').
  { rewrite (N.div_mod (Byte.to_N b) 16), (N.div_mod (Byte.to_N b') 16) by lia.
    rewrite Hhi, Hlo. reflexivity. }
  pose proof (Byte.of_to_N b) as H1. rewrite Heq, Byte.of_to_N in H1.
  injection H1 as <-. reflexivity.
Qed.

(** [hex] loses nothing: different byte strings have different digits. *)
Lemma hex_inj (bs bs' : list Byte.byte) : hex bs = hex bs' -> bs = bs'.
Proof.
  revert bs'. induction bs as [|b bs IH]; intros [|b' bs'] Heq; cbn in Heq;
    try discriminate Heq; [reflexivity|].
  injection Heq as Hhi Hlo Hrest.
  rewrite (byte_of_digits b b'), (IH bs' Hrest); [reflexivity | | ].
  - rewrite Hhi. reflexivity.
  - rewrite Hlo. reflexivity.
Qed.

Section Items.
Context {Page : Type}.

Lemma public_conversion (data : StorageItem Page) (p : PublicStorageItem) :
  PublicStorageItem_from_db_model data = inr p ->
  si_imported data = Some (psi_imported p) /\ psi_hash p = hash_data_of data /\
  psi_id p = si_id data /\ psi_size p = si_size data /\
  psi_mime_type p = si_mime_type data /\ psi_uploaded_at p = si_uploaded_at data.
Proof.
  unfold PublicStorageItem_from_db_model, public_fields.
  destruct (si_imported data); [|discriminate].
  intros Hp. injection Hp as <-. cbn. auto 10.
Qed.

(** X12. The public hash of a storage item is absent exactly when the item
    has no hash; otherwise it is a string of two lowercase hexadecimal digits
    per byte (32 for the 16 bytes the column holds), and it identifies the
    hash: two items have the same public hash only if they have the same
    hash. *)
Theorem public_hash_identifies_hash (d d' : StorageItem Page)
    (p p' : PublicStorageItem) :
  PublicStorageItem_from_db_model d = inr p ->
  PublicStorageItem_from_db_model d' = inr p' ->
  (psi_hash p = None <-> si_hash d = None) /\
  (forall h, si_hash d = Some h ->
     exists s, psi_hash p = Some s /\ String.length s = (2 * length h)%nat /\
               all_chars is_hex_digit s = true) /\
  (psi_hash p = psi_hash p' <-> si_hash d = si_hash d').
Proof.
  intros Hp Hp'.
  destruct (public_conversion d p Hp) as (_ & -> & _).
  destruct (public_conversion d' p' Hp') as (_ & -> & _).
  unfold hash_data_of. split; [|split].
  - destruct (si_hash d); split; first [discriminate | reflexivity].
  - intros h ->. eexists. split; [reflexivity|].
    split; [apply hex_length | apply hex_is_hex].
  - destruct (si_hash d) as [h|], (si_hash d') as [h'|]; split; intros Heq;
      try discriminate Heq; try reflexivity.
    + injection Heq as Heq. apply hex_inj in Heq. subst h'. reflexivity.
    + injection Heq as <-. reflexivity.
Qed.

(** X13. The public view of a storage item exists exactly when the item's
    [imported] flag is set: for an item whose flag is NULL, which the column
    allows, both conversions fail with a validation error on [imported]
    (the private one provided that its quizzes can be iterated). *)
Theorem public_view_needs_imported (data : StorageItem Page) :
  ((exists p, PublicStorageItem_from_db_model data = inr p) <->
   is_Some (si_imported data)) /\
  (si_imported data = None ->
   PublicStorageItem_from_db_model data = inl (Rejected ["imported"]) /\
   (is_Some (si_quizzes data) ->
    PrivateStorageItem_from_db_model data = inl (Rejected ["imported"]))).
Proof.
  unfold PrivateStorageItem_from_db_model, PublicStorageItem_from_db_model, public_fields.
  destruct (si_imported data) as [imported|].
  - split; [split; eauto | discriminate].
  - split.
    + split; [intros [p Hp]; discriminate Hp | intros [? H0]; discriminate H0].
    + intros _. split; [reflexivity|].
      intros [quizzes ->]. reflexivity.
Qed.

Lemma loop_is_map (quizzes : list Quiz) (acc : list OnlyId) :
  fold_left (fun acc quiz => acc ++ [{| only_id := quiz_id quiz |}]) quizzes acc
  = acc ++ List.map (fun quiz => {| only_id := quiz_id quiz |}) quizzes.
Proof.
  revert acc. induction quizzes as [|q quizzes IH]; intros acc; cbn.
  - rewrite app_nil_r. reflexivity.
  - rewrite IH, <- app_assoc. reflexivity.
Qed.

(** X14. In the private view of a storage item, the list of quiztivities is
    the list of quizzes: both hold the ids of the item's quizzes, in order,
    and the quiztivities of the item are never read, so that replacing them
    changes nothing. *)
Theorem private_quiztivities_are_the_quizzes (data : StorageItem Page)
    (p : PrivateStorageItem) :
  PrivateStorageItem_from_db_model data = inr p ->
  prv_quiztivities p = prv_quizzes p /\
  (exists quizzes, si_quizzes data = Some quizzes /\
     prv_quizzes p = List.map (fun quiz => {| only_id := quiz_id quiz |}) quizzes) /\
  (forall quiztivities : option (list (QuizTivity Page)),
      PrivateStorageItem_from_db_model (with_quiztivities data quiztivities) = inr p).
Proof.
  unfold PrivateStorageItem_from_db_model, public_fields, hash_data_of.
  cbn [with_quiztivities si_quizzes si_imported si_hash si_id si_uploaded_at si_mime_type
         si_size si_deleted_at si_alt_text si_filename si_thumbhash si_server].
  destruct (si_quizzes data) as [quizzes|]; [|discriminate].
  destruct (si_imported data) as [imported|]; [|discriminate].
  intros Hp. injection Hp as <-. cbn [prv_quiztivities prv_quizzes].
  split; [reflexivity|]. split; [|reflexivity].
  exists quizzes. split; [reflexivity|]. apply loop_is_map.
Qed.

(** X15. The private view extends the public one: when the private
    conversion returns, the public conversion returns the inherited part of
    its result.  The private conversion also needs the related quizzes: on an
    item whose quizzes are [None] it fails on the iteration, before anything
    is validated. *)
Theorem private_view_extends_public (data : StorageItem Page) :
  (forall p : PrivateStorageItem,
      PrivateStorageItem_from_db_model data = inr p ->
      PublicStorageItem_from_db_model data = inr (prv_public p)) /\
  ((exists p, PrivateStorageItem_from_db_model data = inr p) <->
   is_Some (si_quizzes data) /\ is_Some (si_imported data)) /\
  (si_quizzes data = None -> PrivateStorageItem_from_db_model data = inl NotIterable).
Proof.
  unfold PrivateStorageItem_from_db_model, PublicStorageItem_from_db_model.
  destruct (si_quizzes data) as [quizzes|].
  - unfold public_fields. destruct (si_imported data) as [imported|].
    + split; [|split; [split; eauto | discriminate]].
      intros p Hp. injection Hp as <-. reflexivity.
    + split; [discriminate|]. split; [|discriminate].
      split; [intros [p Hp]; discriminate Hp | intros [_ [? H0]]; discriminate H0].
  - split; [discriminate|]. split; [|reflexivity].
    split; [intros [p Hp]; discriminate Hp | intros [[? H0] _]; discriminate H0].
Qed.
End Items.

Lemma private_quiztivities_are_the_quizzes_witness :
  [ {| only_id := 7 |} ] = [ {| only_id := 7 |} ] /\
  (exists quizzes, si_quizzes example_item = Some quizzes /\
     [ {| only_id := 7 |} ] = List.map (fun quiz => {| only_id := quiz_id quiz |}) quizzes) /\
  (forall quiztivities : option (list (QuizTivity unit)),
      PrivateStorageItem_from_db_model (with_quiztivities example_item quiztivities)
      = inr {| prv_public :=
                 {| psi_id := 3; psi_uploaded_at := 10; psi_mime_type := "image/png";
                    psi_hash := Some "00ff2a"; psi_size := 2048; psi_deleted_at := None;
                    psi_alt_text := None; psi_filename := Some "map.png";
                    psi_thumbhash := None; psi_server := None; psi_imported := false |};
               prv_quizzes := [ {| only_id := 7 |} ];
               prv_quiztivities := [ {| only_id := 7 |} ] |}).
Proof.
  exact (private_quiztivities_are_the_quizzes example_item _ eq_refl).
Defined.

Lemma public_hash_identifies_hash_witness :
  (Some "00ff2a" = None <-> si_hash example_item = None) /\
  (forall h, si_hash example_item = Some h ->
     exists s, Some "00ff2a" = Some s /\ String.length s = (2 * length h)%nat /\
               all_chars is_hex_digit s = true) /\
  (Some "00ff2a" = Some "00ff2a" <-> si_hash example_item = si_hash example_item).
Proof.
  exact (public_hash_identifies_hash example_item example_item
           {| psi_id := 3; psi_uploaded_at := 10; psi_mime_type := "image/png";
              psi_hash := Some "00ff2a"; psi_size := 2048; psi_deleted_at := None;
              psi_alt_text := None; psi_filename := Some "map.png";
              psi_thumbhash := None; psi_server := None; psi_imported := false |}
           _ eq_refl eq_refl).
Defined.
